(** * pyHS100: the single-relay device (SmartMultiPlug) and the power strip
    (SmartStrip)

    A shallow embedding of [pyHS100/smartmultiplug.py] and
    [pyHS100/smartstrip.py].  Methods become functions in an error-and-state
    monad [Py]: the state is the [World] (the physical device behind the
    transport, the wall clock, the trace of transport round trips and the
    warnings logged), the errors are the Python exceptions. *)

From Stdlib Require Import ZArith String Ascii List Lia.
From stdpp Require Import base option list gmap strings pretty.

Open Scope string_scope.
Open Scope Z_scope.

(** ** Python primitives used by the two classes *)

Module Python.

(** [str.upper] on the characters the model has (code points below 256):
    [a]-[z] go to [A]-[Z].  The upper cases of the Latin-1 letters above 127
    contain none of [O], [N] and [F], so these letters are left alone here: a
    comparison of the result with ['ON'] or ['OFF'] is not affected. *)
Definition upper_char (c : ascii) : ascii :=
  let n := nat_of_ascii c in
  if ((97 <=? n) && (n <=? 122))%nat then ascii_of_nat (n - 32) else c.

Fixpoint upper (s : string) : string :=
  match s with
  | EmptyString => EmptyString
  | String c r => String (upper_char c) (upper r)
  end.

(** [s.split(sep)] for a one-character separator: the pieces between the
    separators, empty pieces included; [''.split(':')] is [['']]. *)
Fixpoint split_aux (sep : ascii) (cur : string) (s : string) : list string :=
  match s with
  | EmptyString => [cur]
  | String c r =>
      if Ascii.eqb c sep then cur :: split_aux sep EmptyString r
      else split_aux sep (cur ++ String c EmptyString) r
  end.

Definition split (sep : ascii) (s : string) : list string :=
  split_aux sep EmptyString s.

(** [x in l] for a list of strings. *)
Definition contains (x : string) (l : list string) : bool :=
  existsb (String.eqb x) l.

(** [s[-2:]]: the last two characters, the whole string when it is
    shorter. *)
Definition last_two (s : string) : string :=
  substring (String.length s - 2) 2 s.

(** The characters [int()] strips around a literal: for code points below
    256 these are 9-13, 28-32, 0x85 and 0xA0. *)
Definition is_space (c : ascii) : bool :=
  let n := nat_of_ascii c in
  (((9 <=? n) && (n <=? 13)) || ((28 <=? n) && (n <=? 32))
   || (n =? 133) || (n =? 160))%nat.

Definition is_digit (c : ascii) : bool :=
  let n := nat_of_ascii c in ((48 <=? n) && (n <=? 57))%nat.

Definition digit_value (c : ascii) : Z := Z.of_nat (nat_of_ascii c) - 48.

Fixpoint lstrip (l : list ascii) : list ascii :=
  match l with
  | c :: r => if is_space c then lstrip r else l
  | [] => []
  end.

Definition strip (l : list ascii) : list ascii :=
  rev (lstrip (rev (lstrip l))).

(** Decimal digits, single underscores allowed between two digits.
    [after_digit] tells whether the previous character was a digit. *)
Fixpoint digits (acc : Z) (after_digit : bool) (l : list ascii) : option Z :=
  match l with
  | [] => if after_digit then Some acc else None
  | c :: r =>
      if is_digit c then digits (10 * acc + digit_value c) true r
      else if Ascii.eqb c "_" then
             if after_digit then digits acc false r else None
           else None
  end.

(** [int(s)] for a string: [None] stands for [ValueError]. *)
Definition int (s : string) : option Z :=
  match strip (list_ascii_of_string s) with
  | c :: r =>
      if Ascii.eqb c "-" then Z.opp <$> digits 0 false r
      else if Ascii.eqb c "+" then digits 0 false r
      else digits 0 false (c :: r)
  | [] => None
  end.

(** The values a caller can pass where the code expects a string. *)
Inductive object : Type :=
| PyStr (s : string)
| PyInt (z : Z)
| PyBool (b : bool)
| PyNone
| PyType (name : string).

(** [type(v)], as the type object of that name. *)
Definition type (v : object) : object :=
  match v with
  | PyStr _ => PyType "str"
  | PyInt _ => PyType "int"
  | PyBool _ => PyType "bool"
  | PyNone => PyType "NoneType"
  | PyType _ => PyType "type"
  end.

(** [bool(n)] for an integer. *)
Definition bool_of_int (n : Z) : bool := negb (n =? 0).

(** [l[i]] on a list, with Python's negative indices; [None] stands for
    [IndexError]. *)
Definition getitem {A : Type} (l : list A) (i : Z) : option A :=
  let n := Z.of_nat (length l) in
  if (0 <=? i) && (i <? n) then l !! Z.to_nat i
  else if (- n <=? i) && (i <? 0) then l !! Z.to_nat (n + i)
  else None.

(** [range(n)]: 0, 1, ..., n - 1, empty when [n <= 0]. *)
Definition range (n : Z) : list Z := seqZ 0 n.

(** [datetime] values as microseconds since the epoch, and
    [timedelta(seconds=n)] for an integer [n]. *)
Definition datetime : Type := Z.
Definition timedelta_seconds (n : Z) : Z := 1000000 * n.

(** ['%d' % n] for an integer: its decimal digits, after a minus sign when
    negative. *)
Definition format_d (n : Z) : string := pretty n.

End Python.


(** ** The raw status record *)

(** One child record of [sys_info['children']], with the keys the two classes
    read: [id] (the constructor of the strip, [_get_idx_info]), [state]
    ([SmartStrip.state]), [relay_state] ([SmartStrip.is_on]) and [on_time]
    (both [on_since]). *)
Module Child.
Record t : Type := mk {
  id : string;
  state : Z;
  relay_state : Z;
  on_time : Z
}.
End Child.

(** The record returned by [sys_info]. *)
Module SysInfo.
Record t : Type := mk {
  relay_state : Z;
  led_off : Z;
  feature : string;
  children : list Child.t
}.
End SysInfo.

(** ** The transport and the world it talks to *)

(** A command handed to the transport: the [context] (child id) it is scoped
    to, if any, and [{target: {cmd: arg}}]. *)
Record Request : Type := mkRequest {
  req_context : option string;
  req_target : string;
  req_cmd : string;
  req_arg : list (string * Z)
}.

(** What a command returns: a mapping of numeric fields. *)
Definition RawResult : Type := list (string * Z).

(** A round trip on the transport: a status fetch or a command. *)
Inductive Event : Type :=
| Fetch (context : option string)
| Send (r : Request).

(** The [protocol] object a device is constructed with.  [query_info] answers
    a status fetch from the device's current record, [send_command] answers a
    command and gives the device's record after it; [None] is a transport
    failure in both. *)
Record TPLinkSmartHomeProtocol : Type := mkProtocol {
  query_info : option string -> SysInfo.t -> option SysInfo.t;
  send_command : Request -> SysInfo.t -> option (RawResult * SysInfo.t)
}.

Record World : Type := mkWorld {
  device : SysInfo.t;
  clock : Python.datetime;
  trace : list Event;
  warnings : list Z
}.

(** The commands among the round trips of a trace. *)
Definition commands (tr : list Event) : list Request :=
  omap (fun e => match e with Send r => Some r | Fetch _ => None end) tr.

(** ** Exceptions and the monad of methods *)

Inductive Exn : Type :=
| ValueError (msg : string) (arg : Python.object)
| TypeError
| IndexError
| KeyError (key : Z)
| SmartDeviceException
| SmartStripException (index : Z)
| ChildNotFoundError (index : Z).

Inductive Result (A : Type) : Type :=
| Ok (a : A)
| Raise (e : Exn).
Arguments Ok {A} a.
Arguments Raise {A} e.

Definition Py (A : Type) : Type := World -> Result A * World.

Definition py_ret {A : Type} (a : A) : Py A := fun w => (Ok a, w).

Definition py_bind {A B : Type} (f : A -> Py B) (m : Py A) : Py B :=
  fun w =>
    match m w with
    | (Ok a, w') => f a w'
    | (Raise e, w') => (Raise e, w')
    end.

#[global] Instance Py_ret : MRet Py := @py_ret.
#[global] Instance Py_bind : MBind Py := @py_bind.

Definition raise {A : Type} (e : Exn) : Py A := fun w => (Raise e, w).

(** An optional value, or the exception its absence stands for. *)
Definition or_raise {A : Type} (o : option A) (e : Exn) : Py A :=
  match o with
  | Some a => mret a
  | None => raise e
  end.

(** [for x in l: body], threading the variables the body assigns. *)
Fixpoint for_each {A S : Type} (l : list A) (body : A -> S -> Py S) (s : S)
  : Py S :=
  match l with
  | [] => mret s
  | x :: r => s' ← body x s; for_each r body s'
  end.

(** [_LOGGER.warning("Unknown state %s returned.", v)]. *)
Definition warning (v : Z) : Py unit :=
  fun w => (Ok tt, mkWorld (device w) (clock w) (trace w) (warnings w ++ [v])%list).

(** [datetime.datetime.now()]. *)
Definition now : Py Python.datetime := fun w => (Ok (clock w), w).

(** The values of the dictionaries [state_information] returns: a boolean,
    a [datetime], an integer. *)
Inductive InfoValue : Type :=
| InfoBool (b : bool)
| InfoTime (t : Python.datetime)
| InfoInt (n : Z).

(** ** The base class [SmartDevice] *)

(** Modelled from the spec: the class [SmartDevice] is imported from the
    package and is not among the sources.  Its constants are taken as
    parameters: the energy-meter marker looked for in the feature tags, and
    the name of the command that reads the meter. *)
Class SmartDeviceConstants : Type := {
  FEATURE_ENERGY_METER : string;
  EMETER_GET_REALTIME : string
}.

(** Modelled from the spec: the identity a device object holds (host, the
    shared transport handle, the context it is scoped to) and the meter
    module name both constructors set. *)
Record SmartDevice : Type := mkDevice {
  host : string;
  protocol : TPLinkSmartHomeProtocol;
  context : option string;
  emeter_type : string
}.

(** Modelled from the spec: [sys_info] is [queryDeviceInfo()], fetched fresh on
    every access, scoped by the object's context; a transport failure is
    raised as [SmartDeviceException]. *)
Definition sys_info (self : SmartDevice) : Py SysInfo.t :=
  fun w =>
    let w' := mkWorld (device w) (clock w)
                      (trace w ++ [Fetch (context self)])%list (warnings w) in
    match query_info (protocol self) (context self) (device w) with
    | Some info => (Ok info, w')
    | None => (Raise SmartDeviceException, w')
    end.

(** Modelled from the spec: [_query_helper(target, cmd, arg)] is
    [sendCommand(module, action, parameters)], one round trip scoped by the
    object's context; a transport failure is raised as
    [SmartDeviceException]. *)
Definition _query_helper (self : SmartDevice) (target cmd : string)
    (arg : list (string * Z)) : Py RawResult :=
  fun w =>
    let r := mkRequest (context self) target cmd arg in
    let tr := (trace w ++ [Send r])%list in
    match send_command (protocol self) r (device w) with
    | Some (res, d') => (Ok res, mkWorld d' (clock w) tr (warnings w))
    | None =>
        (Raise SmartDeviceException, mkWorld (device w) (clock w) tr (warnings w))
    end.

(** ** [class SmartMultiPlug(SmartDevice)] *)

Module SmartMultiPlug.

Definition SWITCH_STATE_ON : string := "ON".
Definition SWITCH_STATE_OFF : string := "OFF".
Definition SWITCH_STATE_UNKNOWN : string := "UNKNOWN".

Definition __init__ (host : string) (protocol : TPLinkSmartHomeProtocol)
  : SmartDevice :=
  mkDevice host protocol None "emeter".

(** The [state] property. *)
Definition state (self : SmartDevice) : Py string :=
  info ← sys_info self;
  let relay_state := SysInfo.relay_state info in
  if relay_state =? 0 then mret SWITCH_STATE_OFF
  else if relay_state =? 1 then mret SWITCH_STATE_ON
  else _ ← warning relay_state; mret SWITCH_STATE_UNKNOWN.

Definition turn_on (self : SmartDevice) : Py unit :=
  _ ← _query_helper self "system" "set_relay_state" [("state", 1)];
  mret tt.

Definition turn_off (self : SmartDevice) : Py unit :=
  _ ← _query_helper self "system" "set_relay_state" [("state", 0)];
  mret tt.

(** The setter of [state]. *)
Definition state_setter (self : SmartDevice) (value : Python.object)
  : Py unit :=
  match value with
  | Python.PyStr s =>
      if String.eqb (Python.upper s) SWITCH_STATE_ON then turn_on self
      else if String.eqb (Python.upper s) SWITCH_STATE_OFF then turn_off self
      else raise (ValueError "State %s is not valid." value)
  | _ => raise (ValueError "State must be str, not of %s." (Python.type value))
  end.

Definition is_dimmable (self : SmartDevice) : bool := false.

Definition has_emeter `{SmartDeviceConstants} (self : SmartDevice) : Py bool :=
  info ← sys_info self;
  let features := Python.split ":" (SysInfo.feature info) in
  mret (Python.contains FEATURE_ENERGY_METER features).

Definition is_on (self : SmartDevice) : Py bool :=
  info ← sys_info self;
  mret (Python.bool_of_int (SysInfo.relay_state info)).

Definition led (self : SmartDevice) : Py bool :=
  info ← sys_info self;
  mret (Python.bool_of_int (1 - SysInfo.led_off info)).

Definition led_setter (self : SmartDevice) (state : bool) : Py unit :=
  _ ← _query_helper self "system" "set_led_off"
        [("off", if negb state then 1 else 0)];
  mret tt.

(** The loop of [_get_idx_info]: the first child whose id ends in the two
    characters that [int()] reads as [id]; [int()] raises [ValueError] on a
    child it cannot read. *)
Fixpoint find_idx (id : Z) (children : list Child.t)
  : Result (option Child.t) :=
  match children with
  | [] => Ok None
  | info :: rest =>
      let suffix := Python.last_two (Child.id info) in
      match Python.int suffix with
      | Some n => if id =? n then Ok (Some info) else find_idx id rest
      | None =>
          Raise (ValueError "invalid literal for int() with base 10: %r"
                            (Python.PyStr suffix))
      end
  end.

Definition _get_idx_info (self : SmartDevice) (id : Z)
  : Py (option Child.t) :=
  info ← sys_info self;
  match find_idx id (SysInfo.children info) with
  | Ok r => mret r
  | Raise e => raise e
  end.

(** [on_since(idx)]: subscripting the [None] that [_get_idx_info] returns
    when no child matches raises [TypeError]. *)
Definition on_since (self : SmartDevice) (idx : Z) : Py Python.datetime :=
  id_info ← _get_idx_info self 0;
  t ← now;
  match id_info with
  | Some info => mret (t - Python.timedelta_seconds (Child.on_time info))
  | None => raise TypeError
  end.

(** The [state_information] property: the entries of the dictionary display
    are evaluated in order, [self.led] before [self.on_since(0)]. *)
Definition state_information (self : SmartDevice) : Py (gmap string InfoValue) :=
  led_state ← led self;
  since ← on_since self 0;
  mret (<["On since" := InfoTime since]>
          (<["LED state" := InfoBool led_state]> ∅)).

End SmartMultiPlug.

(** ** The outlet proxies: [class SmartPlug] *)

Module SmartPlug.

(** Modelled from the spec: [SmartPlug] is imported from the package and is
    not among the sources.  The spec has one switch-state enumeration,
    [ON], [OFF], [UNKNOWN], for both device variants. *)
Definition SWITCH_STATE_ON : string := "ON".
Definition SWITCH_STATE_OFF : string := "OFF".
Definition SWITCH_STATE_UNKNOWN : string := "UNKNOWN".

(** Modelled from the spec: an outlet proxy holds the shared device identity
    and a context equal to its child's id. *)
Definition __init__ (host : string) (protocol : TPLinkSmartHomeProtocol)
    (context : option string) : SmartDevice :=
  mkDevice host protocol context "emeter".

(** Modelled from the spec: [turnOn()] and [turnOff()] send
    [{module: "system", action: "set_relay_state", params: {state: 1|0}}],
    a single attempt, in the proxy's context. *)
Definition turn_on (self : SmartDevice) : Py unit :=
  _ ← _query_helper self "system" "set_relay_state" [("state", 1)];
  mret tt.

Definition turn_off (self : SmartDevice) : Py unit :=
  _ ← _query_helper self "system" "set_relay_state" [("state", 0)];
  mret tt.

(** Modelled from the spec: [encodeState] is a case-insensitive match
    against ["ON"] and ["OFF"]; any other value, a non-string included,
    fails with the invalid-state error carrying the offending value. *)
Definition encodeState (value : Python.object) : Result bool :=
  match value with
  | Python.PyStr s =>
      if String.eqb (Python.upper s) SWITCH_STATE_ON then Ok true
      else if String.eqb (Python.upper s) SWITCH_STATE_OFF then Ok false
      else Raise (ValueError "State %s is not valid." value)
  | _ => Raise (ValueError "State %s is not valid." value)
  end.

(** Modelled from the spec: the state write is [encodeState(value)], then
    [turnOn()] or [turnOff()]; an invalid value fails before any command is
    sent. *)
Definition set_state (self : SmartDevice) (value : Python.object) : Py unit :=
  match encodeState value with
  | Ok true => turn_on self
  | Ok false => turn_off self
  | Raise e => raise e
  end.

(** Modelled from the spec: [isOn()] is [record.relay_state != 0] on a
    freshly fetched record. *)
Definition is_on (self : SmartDevice) : Py bool :=
  info ← sys_info self;
  mret (negb (SysInfo.relay_state info =? 0)).

(** Modelled from the spec: a child's index is the last two characters of
    its id read as an integer. *)
Definition child_index (c : Child.t) : option Z :=
  Python.int (Python.last_two (Child.id c)).

(** Modelled from the spec: [onSince(childIndex)] looks up the child whose
    derived index is [childIndex] in the children of the record and returns
    now minus its on-time in seconds; it fails with the child-not-found
    error when there is none. *)
Definition onSince (self : SmartDevice) (childIndex : Z)
  : Py Python.datetime :=
  info ← sys_info self;
  match List.find (fun c => bool_decide (child_index c = Some childIndex))
                  (SysInfo.children info) with
  | Some c =>
      t ← now; mret (t - Python.timedelta_seconds (Child.on_time c))
  | None => raise (ChildNotFoundError childIndex)
  end.

(** Modelled from the spec: the on-since timestamp of a relay device comes
    from its own sub-index 0 record. *)
Definition on_since (self : SmartDevice) : Py Python.datetime :=
  onSince self 0.

(** Modelled from the spec: [hasEnergyMeter()] holds iff the marker is among
    the tags of [record.feature] split on [:]. *)
Definition has_emeter `{SmartDeviceConstants} (self : SmartDevice) : Py bool :=
  info ← sys_info self;
  mret (bool_decide
          (FEATURE_ENERGY_METER ∈ Python.split ":" (SysInfo.feature info))).

(** Modelled from the spec: an energy reading is unavailable, never an
    error, on a device without the marker; otherwise it is the result of
    one command to the meter module. *)
Definition get_emeter_realtime `{SmartDeviceConstants} (self : SmartDevice)
  : Py (option RawResult) :=
  has ← has_emeter self;
  if negb has then mret None
  else r ← _query_helper self (emeter_type self) EMETER_GET_REALTIME [];
       mret (Some r).

(** Modelled from the spec: the [led] read is [!record.led_off], the raw
    field having the inverted sense (0 means the LED is enabled). *)
Definition led (self : SmartDevice) : Py bool :=
  info ← sys_info self;
  mret (SysInfo.led_off info =? 0).

End SmartPlug.

(** ** [class SmartStrip(SmartPlug)] *)

Module SmartStrip.

(** The strip object: the identity it inherits, the [plugs] dictionary built
    by the constructor and the outlet count [num_children]. *)
Record t : Type := mk {
  base : SmartDevice;
  plugs : gmap Z SmartDevice;
  num_children : Z
}.

(** What the methods with an [index] return: a dictionary over the outlets
    without an index, one outlet's value with one. *)
Inductive IsOn : Type :=
| IsOnAll (d : gmap Z bool)
| IsOnOne (b : bool).

Inductive OnSince : Type :=
| OnTimeAll (d : gmap Z Z)
| OnSinceOne (t : Python.datetime).

Inductive Emeter : Type :=
| EmeterNone
| EmeterAll (d : gmap Z (option RawResult))
| EmeterOne (r : RawResult).

(** The constructor.  Modelled from the spec: [num_children] is set by the
    base class, which is not among the sources; the outlet count is
    [len(children)] of the record fetched at construction. *)
Definition __init__ (host : string) (protocol : TPLinkSmartHomeProtocol)
  : Py t :=
  let self := SmartPlug.__init__ host protocol None in
  info ← sys_info self;
  let children := SysInfo.children info in
  let num_children := Z.of_nat (length children) in
  plugs ← for_each (Python.range num_children)
            (fun plug (plugs : gmap Z SmartDevice) =>
               child ← or_raise (Python.getitem children plug) IndexError;
               mret (<[plug := SmartPlug.__init__ host protocol
                                 (Some (Child.id child))]> plugs))
            ∅;
  mret (mk self plugs num_children).

Definition raise_for_index (self : t) (index : Z) : Py unit :=
  match plugs self !! index with
  | None => raise (SmartStripException index)
  | Some _ => mret tt
  end.

(** [self.plugs[index]]. *)
Definition plug_at (self : t) (index : Z) : Py SmartDevice :=
  or_raise (plugs self !! index) (KeyError index).

(** The [state] property.  The loop carries the dictionary and the variable
    [switch_state], which the first [if] assigns and the second [if]/[else]
    assigns again. *)
Definition state (self : t) : Py (gmap Z string) :=
  info ← sys_info (base self);
  let children := SysInfo.children info in
  r ← for_each (Python.range (num_children self))
        (fun plug '(states, switch_state) =>
           child ← or_raise (Python.getitem children plug) IndexError;
           let relay_state := Child.state child in
           let switch_state : option string :=
             if relay_state =? 0 then Some SmartPlug.SWITCH_STATE_OFF
             else switch_state in
           switch_state ←
             (if relay_state =? 1 then mret SmartPlug.SWITCH_STATE_ON
              else _ ← warning relay_state;
                   mret SmartPlug.SWITCH_STATE_UNKNOWN);
           mret (<[plug := switch_state]> states, Some switch_state))
        ((∅ : gmap Z string), (None : option string));
  mret (fst r).

Definition turn_on (self : t) (index : Z) : Py unit :=
  if index <? 0 then
    _ ← _query_helper (base self) "system" "set_relay_state" [("state", 1)];
    mret tt
  else
    _ ← raise_for_index self index;
    p ← plug_at self index;
    SmartPlug.turn_on p.

Definition turn_off (self : t) (index : Z) : Py unit :=
  if index <? 0 then
    _ ← _query_helper (base self) "system" "set_relay_state" [("state", 0)];
    mret tt
  else
    _ ← raise_for_index self index;
    p ← plug_at self index;
    SmartPlug.turn_off p.

(** The setter of [state]; [self.turn_on()] and [self.turn_off()] are the
    strip's own, with the default index -1. *)
Definition state_setter (self : t) (value : Python.object) : Py unit :=
  match value with
  | Python.PyStr s =>
      if String.eqb (Python.upper s) SmartPlug.SWITCH_STATE_ON
      then turn_on self (-1)
      else if String.eqb (Python.upper s) SmartPlug.SWITCH_STATE_OFF
      then turn_off self (-1)
      else raise (ValueError "State %s is not valid." value)
  | _ => raise (ValueError "State must be str, not of %s." (Python.type value))
  end.

Definition set_state (self : t) (value : Python.object) (index : Z)
  : Py unit :=
  if index <? 0 then state_setter self value
  else
    _ ← raise_for_index self index;
    p ← plug_at self index;
    SmartPlug.set_state p value.

Definition is_on (self : t) (index : Z) : Py IsOn :=
  if index <? 0 then
    info ← sys_info (base self);
    let children := SysInfo.children info in
    is_on ← for_each (Python.range (num_children self))
              (fun plug (is_on : gmap Z bool) =>
                 child ← or_raise (Python.getitem children plug) IndexError;
                 mret (<[plug := Python.bool_of_int (Child.relay_state child)]>
                         is_on))
              ∅;
    mret (IsOnAll is_on)
  else
    _ ← raise_for_index self index;
    p ← plug_at self index;
    b ← SmartPlug.is_on p;
    mret (IsOnOne b).

(** With an index, [self.plugs[index].on_since] reads the property of the
    proxy. *)
Definition on_since (self : t) (index : Z) : Py OnSince :=
  if index <? 0 then
    info ← sys_info (base self);
    let children := SysInfo.children info in
    on_since ← for_each (Python.range (num_children self))
                 (fun plug (on_since : gmap Z Z) =>
                    child ← or_raise (Python.getitem children plug) IndexError;
                    mret (<[plug := Child.on_time child]> on_since))
                 ∅;
    mret (OnTimeAll on_since)
  else
    _ ← raise_for_index self index;
    p ← plug_at self index;
    t ← SmartPlug.on_since p;
    mret (OnSinceOne t).

(** [self.has_emeter] is the property the strip inherits. *)
Definition get_emeter_realtime `{SmartDeviceConstants} (self : t) (index : Z)
  : Py Emeter :=
  has ← SmartPlug.has_emeter (base self);
  if negb has then mret EmeterNone
  else if index <? 0 then
    emeter_status ←
      for_each (Python.range (num_children self))
        (fun plug (emeter_status : gmap Z (option RawResult)) =>
           p ← plug_at self plug;
           r ← SmartPlug.get_emeter_realtime p;
           mret (<[plug := r]> emeter_status))
        ∅;
    mret (EmeterAll emeter_status)
  else
    _ ← raise_for_index self index;
    p ← plug_at self index;
    r ← SmartPlug.get_emeter_realtime p;
    mret (match r with Some x => EmeterOne x | None => EmeterNone end).

(** The label ['Plug %d on since' % (plug_index + 1)]. *)
Definition plug_label (plug_index : Z) : string :=
  "Plug " ++ Python.format_d (plug_index + 1) ++ " on since".

(** The [state_information] property.  [self.led] is the property the strip
    inherits; [self.on_since()] is the call with the default index -1, and
    subscripting its result is a dictionary lookup (a [datetime] cannot be
    subscripted). *)
Definition state_information (self : t) : Py (gmap string InfoValue) :=
  led_state ← SmartPlug.led (base self);
  let state : gmap string InfoValue := <["LED state" := InfoBool led_state]> ∅ in
  on_since ← on_since self (-1);
  for_each (Python.range (num_children self))
    (fun plug_index (state : gmap string InfoValue) =>
       v ← match on_since with
           | OnTimeAll d => or_raise (d !! plug_index) (KeyError plug_index)
           | OnSinceOne _ => raise TypeError
           end;
       mret (<[plug_label plug_index := InfoInt v]> state))
    state.

End SmartStrip.

(** ** Vocabulary of the specification *)

(** The case variants of the two state tokens. *)
Definition on_tokens : list string := ["ON"; "On"; "oN"; "on"].
Definition off_tokens : list string :=
  ["OFF"; "OFf"; "OfF"; "Off"; "oFF"; "oFf"; "ofF"; "off"].

(** [value] is a string, one of [tokens]. *)
Definition says (tokens : list string) (value : Python.object) : Prop :=
  match value with
  | Python.PyStr s => s ∈ tokens
  | _ => False
  end.

#[global] Instance says_dec tokens value : Decision (says tokens value).
Proof. destruct value; simpl; apply _. Defined.

(** The feature tags of a record contain the energy-meter marker. *)
Definition has_marker `{SmartDeviceConstants} (info : SysInfo.t) : Prop :=
  FEATURE_ENERGY_METER ∈ Python.split ":" (SysInfo.feature info).

#[global] Instance has_marker_dec `{SmartDeviceConstants} info :
  Decision (has_marker info).
Proof. unfold has_marker. apply _. Defined.

(** The whole-device or outlet-scoped relay command. *)
Definition set_relay_state (context : option string) (v : Z) : Request :=
  mkRequest context "system" "set_relay_state" [("state", v)].

(** The world after one more round trip [e] that left the device as it
    was. *)
Definition after (e : Event) (w : World) : World :=
  mkWorld (device w) (clock w) (trace w ++ [e])%list (warnings w).

(** Running [f] on every device of a list in turn, first to last, stopping at
    the first exception. *)
Fixpoint in_turn {A : Type} (f : SmartDevice -> Py A) (ps : list SmartDevice)
  : Py (list A) :=
  match ps with
  | [] => mret []
  | p :: rest => a ← f p; r ← in_turn f rest; mret (a :: r)
  end.

(** The proxy of a child record, and the proxies of a children list in record
    order. *)
Definition proxy (host : string) (protocol : TPLinkSmartHomeProtocol)
    (c : Child.t) : SmartDevice :=
  SmartPlug.__init__ host protocol (Some (Child.id c)).

Definition proxies (host : string) (protocol : TPLinkSmartHomeProtocol)
    (cs : list Child.t) : list SmartDevice :=
  proxy host protocol <$> cs.

(** [sep.join(pieces)]. *)
Fixpoint join (sep : string) (pieces : list string) : string :=
  match pieces with
  | [] => ""
  | [x] => x
  | x :: rest => x ++ sep ++ join sep rest
  end.

(** The character [c] occurs in [s]. *)
Fixpoint occurs (c : ascii) (s : string) : bool :=
  match s with
  | EmptyString => false
  | String a r => Ascii.eqb a c || occurs c r
  end.

(** ** A sample device, for running the methods on concrete inputs *)

Module Sample.

#[global] Instance constants : SmartDeviceConstants :=
  {| FEATURE_ENERGY_METER := "ENE"; EMETER_GET_REALTIME := "get_realtime" |}.

Definition set_child (ctx : option string) (v : Z) (c : Child.t) : Child.t :=
  match ctx with
  | Some i =>
      if String.eqb i (Child.id c)
      then Child.mk (Child.id c) v v (Child.on_time c) else c
  | None => Child.mk (Child.id c) v v (Child.on_time c)
  end.

(** The record a fetch scoped to one child answers with: the outlet as a
    relay device of its own, mirrored at sub-index 0. *)
Definition narrow (d : SysInfo.t) (c : Child.t) : SysInfo.t :=
  SysInfo.mk (Child.relay_state c) (SysInfo.led_off d) (SysInfo.feature d)
    [Child.mk "00" (Child.state c) (Child.relay_state c) (Child.on_time c)].

(** A transport that always answers: a fetch returns the device's record
    (narrowed to the child it is scoped to), a [set_relay_state] command
    stores the relay value where it is addressed, any other command leaves
    the device as it is. *)
Definition answering : TPLinkSmartHomeProtocol :=
  mkProtocol
    (fun ctx d =>
       match ctx with
       | None => Some d
       | Some i =>
           narrow d <$> List.find (fun c => String.eqb i (Child.id c))
                                  (SysInfo.children d)
       end)
    (fun r d =>
       match req_arg r with
       | [(_, v)] =>
           if String.eqb (req_cmd r) "set_relay_state" then
             Some ([("err_code", 0)],
                   SysInfo.mk
                     (match req_context r with
                      | None => v
                      | Some _ => SysInfo.relay_state d
                      end)
                     (SysInfo.led_off d) (SysInfo.feature d)
                     (set_child (req_context r) v <$> SysInfo.children d))
           else Some ([("err_code", 0)], d)
       | _ => Some ([("power_mw", 1200)], d)
       end).

Definition child (suffix : string) (st on_time : Z) : Child.t :=
  Child.mk ("8006E9A2" ++ suffix) st st on_time.

Definition outlets : list Child.t :=
  [child "00" 0 0; child "01" 1 120; child "02" 1 3600; child "03" 0 0].

(** A four-outlet strip: outlets 0 and 3 off, 1 and 2 on. *)
Definition strip4 (feature : string) : SysInfo.t :=
  SysInfo.mk 0 0 feature outlets.

(** A relay device whose children array lists two records. *)
Definition relay2 (relay_state : Z) : SysInfo.t :=
  SysInfo.mk relay_state 0 "TIM" [child "00" 1 10; child "01" 1 99].

(** A relay device whose only child record has an id ending in 01. *)
Definition relay1 : SysInfo.t :=
  SysInfo.mk 1 0 "TIM" [child "01" 1 99].

(** A one-outlet strip whose own relay field and whose child both hold the
    raw value [v]. *)
Definition single (v : Z) : SysInfo.t :=
  SysInfo.mk v 0 "TIM" [child "00" v 0].

Definition world (d : SysInfo.t) : World := mkWorld d 1700000000000000 [] [].

Definition address : string := "192.168.1.105".

Definition plug : SmartDevice := SmartMultiPlug.__init__ address answering.

(** The strip objects the constructor builds over [strip4] and over
    [single]. *)
Definition strip : SmartStrip.t :=
  SmartStrip.mk (SmartPlug.__init__ address answering None)
    (map_seqZ 0 (proxies address answering outlets)) 4.

Definition strip1 : SmartStrip.t :=
  SmartStrip.mk (SmartPlug.__init__ address answering None)
    (map_seqZ 0 (proxies address answering [child "00" 0 0])) 1.

End Sample.

(** ** A device that stores what it is told *)

Module Bench.

(** A transport in front of a firmware that stores the relay value of a
    [set_relay_state] command and the [off] value of a [set_led_off] command
    in the record it then reports, and answers every fetch with the whole
    record. *)
Definition storing : TPLinkSmartHomeProtocol :=
  mkProtocol
    (fun _ d => Some d)
    (fun r d =>
       match req_arg r with
       | [(_, v)] =>
           if String.eqb (req_cmd r) "set_relay_state" then
             Some ([("err_code", 0)],
                   SysInfo.mk v (SysInfo.led_off d) (SysInfo.feature d)
                     (SysInfo.children d))
           else if String.eqb (req_cmd r) "set_led_off" then
             Some ([("err_code", 0)],
                   SysInfo.mk (SysInfo.relay_state d) v (SysInfo.feature d)
                     (SysInfo.children d))
           else Some ([("err_code", 0)], d)
       | _ => Some ([("err_code", 0)], d)
       end).

(** A transport that is down. *)
Definition unreachable : TPLinkSmartHomeProtocol :=
  mkProtocol (fun _ _ => None) (fun _ _ => None).

Definition plug : SmartDevice := SmartMultiPlug.__init__ "192.168.1.105" storing.

(** A record with three children whose ids end in 00, x7 (not a number) and
    01. *)
Definition mixed : SysInfo.t :=
  SysInfo.mk 1 0 "TIM:ENE"
    [Sample.child "00" 1 10; Sample.child "x7" 1 20; Sample.child "01" 1 30].

End Bench.

(** * Properties *)

(** ** Running the primitives *)

Example upper_mixed : Python.upper "oFf" = "OFF".
Proof. reflexivity. Qed.

Example split_feature : Python.split ":" "TIM:ENE" = ["TIM"; "ENE"].
Proof. reflexivity. Qed.

Example split_empty : Python.split ":" "" = [""].
Proof. reflexivity. Qed.

Example last_two_id : Python.last_two "8006E9A201" = "01".
Proof. reflexivity. Qed.

Example last_two_short : Python.last_two "7" = "7".
Proof. reflexivity. Qed.

Example int_01 : Python.int "01" = Some 1.
Proof. reflexivity. Qed.

Example int_signed : Python.int "-7" = Some (-7).
Proof. reflexivity. Qed.

Example int_bad : Python.int "A1" = None.
Proof. reflexivity. Qed.

Example int_underscore : Python.int "1_" = None.
Proof. reflexivity. Qed.

(** ** The monad *)

Lemma bind_unfold {A B : Type} (m : Py A) (f : A -> Py B) (w : World) :
  (m ≫= f) w =
  match m w with
  | (Ok a, w') => f a w'
  | (Raise e, w') => (Raise e, w')
  end.
Proof. reflexivity. Qed.

Ltac py_unfold :=
  unfold mbind, mret, Py_bind, Py_ret, py_bind, py_ret, raise, or_raise;
  simpl.

Lemma bind_ok {A B : Type} (m : Py A) (f : A -> Py B) (w w' : World) (a : A) :
  m w = (Ok a, w') -> (m ≫= f) w = f a w'.
Proof. intros E. rewrite bind_unfold, E. reflexivity. Qed.

Lemma bind_raise {A B : Type} (m : Py A) (f : A -> Py B) (w w' : World) e :
  m w = (Raise e, w') -> (m ≫= f) w = (Raise e, w').
Proof. intros E. rewrite bind_unfold, E. reflexivity. Qed.

Lemma for_each_app {A S : Type} (l1 l2 : list A) (body : A -> S -> Py S)
    (s : S) (w : World) :
  for_each (l1 ++ l2) body s w =
  (for_each l1 body s ≫= for_each l2 body) w.
Proof.
  revert s w. induction l1 as [|x l1 IH]; intros s w; simpl.
  - reflexivity.
  - rewrite !bind_unfold. destruct (body x s w) as [[s'|e] w']; [|reflexivity].
    rewrite IH, bind_unfold. reflexivity.
Qed.

(** ** Lists and ranges *)

Lemma getitem_nat {A : Type} (l : list A) (i : nat) :
  (i < length l)%nat -> Python.getitem l (Z.of_nat i) = l !! i.
Proof.
  intros Hi. unfold Python.getitem.
  replace (0 <=? Z.of_nat i) with true by (symmetry; apply Z.leb_le; lia).
  replace (Z.of_nat i <? Z.of_nat (length l)) with true
    by (symmetry; apply Z.ltb_lt; lia).
  simpl. rewrite Nat2Z.id. reflexivity.
Qed.

Lemma range_S (k : nat) :
  Python.range (Z.of_nat (S k)) = (Python.range (Z.of_nat k) ++ [Z.of_nat k])%list.
Proof. unfold Python.range. rewrite seqZ_S. reflexivity. Qed.

(** A loop that stores [f children[plug]] under every [plug] of the range
    builds the dictionary of the first [k] children; it needs [k] children to
    be there. *)
Lemma for_each_collect {V : Type} (f : Child.t -> V) (children : list Child.t)
    (k : nat) (w : World) :
  (k <= length children)%nat ->
  for_each (Python.range (Z.of_nat k))
    (fun plug (d : gmap Z V) =>
       child ← or_raise (Python.getitem children plug) IndexError;
       mret (<[plug := f child]> d))
    ∅ w
  = (Ok (map_seqZ 0 (f <$> take k children)), w).
Proof.
  induction k as [|k IH]; intros Hk.
  - reflexivity.
  - rewrite range_S, for_each_app.
    erewrite bind_ok by (apply IH; lia).
    destruct (lookup_lt_is_Some_2 children k ltac:(lia)) as [c Hc].
    simpl. rewrite getitem_nat by lia. rewrite Hc. simpl.
    rewrite (take_S_r _ _ _ Hc), fmap_app.
    change (f <$> [c]) with [f c]. rewrite map_seqZ_snoc.
    rewrite length_fmap, length_take, Nat.min_l by lia.
    reflexivity.
Qed.

(** With fewer children than the range asks for, the loop raises
    [IndexError]. *)
Lemma for_each_short {V : Type} (f : Child.t -> V) (children : list Child.t)
    (k : nat) (w : World) :
  (length children < k)%nat ->
  for_each (Python.range (Z.of_nat k))
    (fun plug (d : gmap Z V) =>
       child ← or_raise (Python.getitem children plug) IndexError;
       mret (<[plug := f child]> d))
    ∅ w
  = (Raise IndexError, w).
Proof.
  induction k as [|k IH]; intros Hk; [lia|].
  rewrite range_S, for_each_app.
  destruct (decide (length children < k)%nat) as [Hlt|Hge].
  - erewrite bind_raise by (apply IH; lia). reflexivity.
  - erewrite bind_ok by (apply for_each_collect; lia).
    simpl. unfold Python.getitem.
    replace (Z.of_nat k <? Z.of_nat (length children)) with false
      by (symmetry; apply Z.ltb_ge; lia).
    rewrite andb_false_r.
    replace (Z.of_nat k <? 0) with false by (symmetry; apply Z.ltb_ge; lia).
    rewrite andb_false_r. reflexivity.
Qed.

Lemma contains_elem_of (x : string) (l : list string) :
  Python.contains x l = bool_decide (x ∈ l).
Proof.
  unfold Python.contains. induction l as [|t l IH]; simpl.
  - reflexivity.
  - rewrite IH. destruct (String.eqb_spec x t) as [E|E]; simpl.
    + symmetry. apply bool_decide_eq_true_2. rewrite E. left.
    + apply bool_decide_ext. rewrite elem_of_cons. tauto.
Qed.

(** ** The transport *)

Lemma sys_info_ok (self : SmartDevice) (w : World) (info : SysInfo.t) :
  query_info (protocol self) (context self) (device w) = Some info ->
  sys_info self w = (Ok info, after (Fetch (context self)) w).
Proof. intros E. unfold sys_info. rewrite E. reflexivity. Qed.

Lemma commands_app (t1 t2 : list Event) :
  commands (t1 ++ t2) = (commands t1 ++ commands t2)%list.
Proof. unfold commands. apply omap_app. Qed.

Lemma commands_after_fetch (ctx : option string) (w : World) :
  commands (trace (after (Fetch ctx) w)) = commands (trace w).
Proof. simpl. rewrite commands_app. simpl. apply app_nil_r. Qed.

(** A command is one round trip, whatever the transport answers. *)
Lemma query_helper_trace (self : SmartDevice) (target cmd : string)
    (arg : list (string * Z)) (w : World) :
  trace (snd (_query_helper self target cmd arg w)) =
  (trace w ++ [Send (mkRequest (context self) target cmd arg)])%list.
Proof.
  unfold _query_helper.
  destruct (send_command _ _ _) as [[res d']|]; reflexivity.
Qed.

(** ** The state tokens *)

Ltac upper_char_cases c :=
  destruct c as [[] [] [] [] [] [] [] []]; vm_compute; intros E;
  first [discriminate E | auto].

Lemma upper_char_O (c : ascii) :
  Python.upper_char c = "O"%char -> c = "O"%char \/ c = "o"%char.
Proof. upper_char_cases c. Qed.

Lemma upper_char_N (c : ascii) :
  Python.upper_char c = "N"%char -> c = "N"%char \/ c = "n"%char.
Proof. upper_char_cases c. Qed.

Lemma upper_char_F (c : ascii) :
  Python.upper_char c = "F"%char -> c = "F"%char \/ c = "f"%char.
Proof. upper_char_cases c. Qed.

(** [value.upper() == 'ON'] holds for the four case variants of the token and
    for no other string. *)
Lemma upper_ON (s : string) : Python.upper s = "ON" <-> s ∈ on_tokens.
Proof.
  split.
  - destruct s as [|c1 [|c2 [|c3 s]]]; simpl; intros E; try discriminate E.
    injection E as E1 E2.
    destruct (upper_char_O _ E1) as [-> | ->];
      destruct (upper_char_N _ E2) as [-> | ->];
      unfold on_tokens; set_solver.
  - unfold on_tokens. rewrite !elem_of_cons, elem_of_nil.
    intros [-> | [-> | [-> | [-> | []]]]]; reflexivity.
Qed.

Lemma upper_OFF (s : string) : Python.upper s = "OFF" <-> s ∈ off_tokens.
Proof.
  split.
  - destruct s as [|c1 [|c2 [|c3 [|c4 s]]]]; simpl; intros E; try discriminate E.
    injection E as E1 E2 E3.
    destruct (upper_char_O _ E1) as [-> | ->];
      destruct (upper_char_F _ E2) as [-> | ->];
      destruct (upper_char_F _ E3) as [-> | ->];
      unfold off_tokens; set_solver.
  - unfold off_tokens. rewrite !elem_of_cons, elem_of_nil.
    intros [-> | [-> | [-> | [-> | [-> | [-> | [-> | [-> | []]]]]]]]];
      reflexivity.
Qed.

Lemma eqb_upper_ON (s : string) :
  String.eqb (Python.upper s) "ON" = bool_decide (s ∈ on_tokens).
Proof.
  destruct (String.eqb_spec (Python.upper s) "ON") as [E|E].
  - symmetry. apply bool_decide_eq_true_2, upper_ON, E.
  - symmetry. apply bool_decide_eq_false_2. rewrite <- upper_ON. exact E.
Qed.

Lemma eqb_upper_OFF (s : string) :
  String.eqb (Python.upper s) "OFF" = bool_decide (s ∈ off_tokens).
Proof.
  destruct (String.eqb_spec (Python.upper s) "OFF") as [E|E].
  - symmetry. apply bool_decide_eq_true_2, upper_OFF, E.
  - symmetry. apply bool_decide_eq_false_2. rewrite <- upper_OFF. exact E.
Qed.

Lemma tokens_disjoint (s : string) : s ∈ on_tokens -> s ∈ off_tokens -> False.
Proof.
  rewrite <- upper_ON, <- upper_OFF. intros E1 E2. rewrite E1 in E2.
  discriminate E2.
Qed.

(** The two setters take the same decision on a value: the first branch that
    applies among "not a string", "spells ON", "spells OFF", "anything
    else". *)
Lemma plug_setter_cases (self : SmartDevice) (value : Python.object) :
  SmartMultiPlug.state_setter self value =
  if decide (says on_tokens value) then SmartMultiPlug.turn_on self
  else if decide (says off_tokens value) then SmartMultiPlug.turn_off self
  else match value with
       | Python.PyStr _ => raise (ValueError "State %s is not valid." value)
       | _ => raise (ValueError "State must be str, not of %s."
                                (Python.type value))
       end.
Proof.
  destruct value as [s| | | |]; simpl; try reflexivity.
  unfold SmartMultiPlug.SWITCH_STATE_ON, SmartMultiPlug.SWITCH_STATE_OFF.
  rewrite eqb_upper_ON, eqb_upper_OFF.
  repeat case_decide; repeat case_bool_decide; try reflexivity; contradiction.
Qed.

Lemma strip_setter_cases (self : SmartStrip.t) (value : Python.object) :
  SmartStrip.state_setter self value =
  if decide (says on_tokens value) then SmartStrip.turn_on self (-1)
  else if decide (says off_tokens value) then SmartStrip.turn_off self (-1)
  else match value with
       | Python.PyStr _ => raise (ValueError "State %s is not valid." value)
       | _ => raise (ValueError "State must be str, not of %s."
                                (Python.type value))
       end.
Proof.
  destruct value as [s| | | |]; simpl; try reflexivity.
  unfold SmartPlug.SWITCH_STATE_ON, SmartPlug.SWITCH_STATE_OFF.
  rewrite eqb_upper_ON, eqb_upper_OFF.
  repeat case_decide; repeat case_bool_decide; try reflexivity; contradiction.
Qed.

(** Closing a decidable hypothesis at a concrete input by evaluating its
    decision procedure. *)
Ltac by_evaluation :=
  lazymatch goal with
  | |- ~ ?P => apply (bool_decide_eq_false_1 P); vm_compute; reflexivity
  | |- ?P => apply (bool_decide_eq_true_1 P); vm_compute; reflexivity
  end.

(** ** Writing the state *)

Lemma plug_turn_trace (self : SmartDevice) (w : World) :
  trace (snd (SmartMultiPlug.turn_on self w)) =
    (trace w ++ [Send (set_relay_state (context self) 1)])%list /\
  trace (snd (SmartMultiPlug.turn_off self w)) =
    (trace w ++ [Send (set_relay_state (context self) 0)])%list.
Proof.
  unfold SmartMultiPlug.turn_on, SmartMultiPlug.turn_off.
  rewrite !bind_unfold.
  pose proof (query_helper_trace self "system" "set_relay_state" [("state", 1)] w).
  pose proof (query_helper_trace self "system" "set_relay_state" [("state", 0)] w).
  split.
  - destruct (_query_helper self _ _ [("state", 1)] w) as [[?|?] ?]; assumption.
  - destruct (_query_helper self _ _ [("state", 0)] w) as [[?|?] ?]; assumption.
Qed.

Lemma proxy_turn_trace (self : SmartDevice) (w : World) :
  trace (snd (SmartPlug.turn_on self w)) =
    (trace w ++ [Send (set_relay_state (context self) 1)])%list /\
  trace (snd (SmartPlug.turn_off self w)) =
    (trace w ++ [Send (set_relay_state (context self) 0)])%list.
Proof. apply plug_turn_trace. Qed.

Lemma strip_turn_all_trace (self : SmartStrip.t) (index : Z) (w : World) :
  index < 0 ->
  trace (snd (SmartStrip.turn_on self index w)) =
    (trace w ++ [Send (set_relay_state (context (SmartStrip.base self)) 1)])%list /\
  trace (snd (SmartStrip.turn_off self index w)) =
    (trace w ++ [Send (set_relay_state (context (SmartStrip.base self)) 0)])%list.
Proof.
  intros Hneg. unfold SmartStrip.turn_on, SmartStrip.turn_off.
  replace (index <? 0) with true by (symmetry; apply Z.ltb_lt; lia).
  apply (plug_turn_trace (SmartStrip.base self) w).
Qed.

(** C6.  On the single-relay device and on the strip alike, writing a state
    value that is not a string, or a string that is no case variant of "ON" or
    "OFF", raises ValueError and leaves the world as it was (no round trip on
    the transport); a case variant of "ON" runs turn_on, a case variant of
    "OFF" runs turn_off, and that is one [set_relay_state] command with state
    1, respectively 0. *)
Theorem state_write_validates (value : Python.object) (plug : SmartDevice)
    (strip : SmartStrip.t) (w : World) :
  (~ says on_tokens value -> ~ says off_tokens value ->
     (exists msg arg,
        SmartMultiPlug.state_setter plug value w = (Raise (ValueError msg arg), w)) /\
     (exists msg arg,
        SmartStrip.state_setter strip value w = (Raise (ValueError msg arg), w)))
  /\ (says on_tokens value ->
        SmartMultiPlug.state_setter plug value w = SmartMultiPlug.turn_on plug w /\
        trace (snd (SmartMultiPlug.state_setter plug value w)) =
          (trace w ++ [Send (set_relay_state (context plug) 1)])%list /\
        SmartStrip.state_setter strip value w = SmartStrip.turn_on strip (-1) w /\
        trace (snd (SmartStrip.state_setter strip value w)) =
          (trace w ++ [Send (set_relay_state (context (SmartStrip.base strip)) 1)])%list)
  /\ (says off_tokens value ->
        SmartMultiPlug.state_setter plug value w = SmartMultiPlug.turn_off plug w /\
        trace (snd (SmartMultiPlug.state_setter plug value w)) =
          (trace w ++ [Send (set_relay_state (context plug) 0)])%list /\
        SmartStrip.state_setter strip value w = SmartStrip.turn_off strip (-1) w /\
        trace (snd (SmartStrip.state_setter strip value w)) =
          (trace w ++ [Send (set_relay_state (context (SmartStrip.base strip)) 0)])%list).
Proof.
  rewrite plug_setter_cases, strip_setter_cases.
  split; [|split].
  - intros Hon Hoff. rewrite !decide_False by assumption.
    destruct value; split; eexists _, _; reflexivity.
  - intros Hon. rewrite !decide_True by assumption.
    repeat split; first
      [ apply plug_turn_trace | apply (strip_turn_all_trace strip (-1) w); lia ].
  - intros Hoff.
    assert (~ says on_tokens value) as Hon.
    { destruct value; simpl in *; try tauto.
      intros Hon. exact (tokens_disjoint _ Hon Hoff). }
    rewrite !(decide_False (P := says on_tokens value)) by assumption.
    rewrite !decide_True by assumption.
    repeat split; first
      [ apply plug_turn_trace | apply (strip_turn_all_trace strip (-1) w); lia ].
Qed.

(** Writing "UNKNOWN" to the relay device, "oN" and "Off" to the strip. *)
Lemma state_write_validates_witness :
  (exists msg arg,
     SmartMultiPlug.state_setter Sample.plug (Python.PyStr "UNKNOWN")
       (Sample.world (Sample.relay2 0))
     = (Raise (ValueError msg arg), Sample.world (Sample.relay2 0)))
  /\ trace (snd (SmartStrip.state_setter Sample.strip (Python.PyStr "oN")
                   (Sample.world (Sample.strip4 "TIM"))))
     = [Send (set_relay_state None 1)]
  /\ trace (snd (SmartStrip.state_setter Sample.strip (Python.PyStr "Off")
                   (Sample.world (Sample.strip4 "TIM"))))
     = [Send (set_relay_state None 0)].
Proof.
  split; [|split].
  - apply (state_write_validates (Python.PyStr "UNKNOWN") Sample.plug
             Sample.strip (Sample.world (Sample.relay2 0))).
    + by_evaluation.
    + by_evaluation.
  - apply (state_write_validates (Python.PyStr "oN") Sample.plug
             Sample.strip (Sample.world (Sample.strip4 "TIM"))).
    by_evaluation.
  - apply (state_write_validates (Python.PyStr "Off") Sample.plug
             Sample.strip (Sample.world (Sample.strip4 "TIM"))).
    by_evaluation.
Defined.

(** ** The constructor of the strip *)

(** When the fetch at construction answers with [info], the constructor
    returns the strip with one proxy per child, in record order, each scoped
    to its child's id. *)
Lemma init_spec (h : string) (p : TPLinkSmartHomeProtocol) (w : World)
    (info : SysInfo.t) :
  query_info p None (device w) = Some info ->
  SmartStrip.__init__ h p w =
  (Ok (SmartStrip.mk (SmartPlug.__init__ h p None)
         (map_seqZ 0 (proxies h p (SysInfo.children info)))
         (Z.of_nat (length (SysInfo.children info)))),
   after (Fetch None) w).
Proof.
  intros Hq. unfold SmartStrip.__init__.
  erewrite bind_ok by (apply (sys_info_ok (SmartPlug.__init__ h p None)); exact Hq).
  erewrite bind_ok.
  2:{ apply (for_each_collect
               (fun c => SmartPlug.__init__ h p (Some (Child.id c)))).
      reflexivity. }
  rewrite firstn_all. reflexivity.
Qed.

Lemma init_inv (h : string) (p : TPLinkSmartHomeProtocol) (w0 w1 : World)
    (self : SmartStrip.t) :
  SmartStrip.__init__ h p w0 = (Ok self, w1) ->
  exists info,
    query_info p None (device w0) = Some info /\
    self = SmartStrip.mk (SmartPlug.__init__ h p None)
             (map_seqZ 0 (proxies h p (SysInfo.children info)))
             (Z.of_nat (length (SysInfo.children info))).
Proof.
  intros Hinit.
  destruct (query_info p None (device w0)) as [info|] eqn:Hq.
  - exists info. split; [reflexivity|].
    rewrite (init_spec h p w0 info Hq) in Hinit. congruence.
  - unfold SmartStrip.__init__ in Hinit. rewrite bind_unfold in Hinit.
    unfold sys_info in Hinit. simpl in Hinit. rewrite Hq in Hinit.
    discriminate Hinit.
Qed.

Example init_sample (feature : string) :
  SmartStrip.__init__ Sample.address Sample.answering
    (Sample.world (Sample.strip4 feature))
  = (Ok Sample.strip, after (Fetch None) (Sample.world (Sample.strip4 feature))).
Proof. apply (init_spec _ _ _ (Sample.strip4 feature)). reflexivity. Qed.

Example init_sample1 :
  SmartStrip.__init__ Sample.address Sample.answering
    (Sample.world (Sample.single 0))
  = (Ok Sample.strip1, after (Fetch None) (Sample.world (Sample.single 0))).
Proof. apply (init_spec _ _ _ (Sample.single 0)). reflexivity. Qed.

(** ** A strip the constructor returned *)

Section Constructed.

Context `{SmartDeviceConstants}.

Variables (h : string) (p : TPLinkSmartHomeProtocol).
Variables (w0 w1 : World) (info0 : SysInfo.t) (self : SmartStrip.t).

(** [self] is the object the constructor returned when the fetch answered
    with [info0]. *)
Hypothesis fetched0 : query_info p None (device w0) = Some info0.
Hypothesis built : SmartStrip.__init__ h p w0 = (Ok self, w1).

Lemma self_eq :
  self = SmartStrip.mk (SmartPlug.__init__ h p None)
           (map_seqZ 0 (proxies h p (SysInfo.children info0)))
           (Z.of_nat (length (SysInfo.children info0))).
Proof. rewrite (init_spec h p w0 info0 fetched0) in built. congruence. Qed.

Lemma num_children_eq :
  SmartStrip.num_children self = Z.of_nat (length (SysInfo.children info0)).
Proof. rewrite self_eq. reflexivity. Qed.

Lemma base_eq : SmartStrip.base self = SmartPlug.__init__ h p None.
Proof. rewrite self_eq. reflexivity. Qed.

(** The proxies are exactly the indices below the outlet count. *)
Lemma plugs_in_range (i : Z) :
  0 <= i < SmartStrip.num_children self ->
  exists c, SysInfo.children info0 !! Z.to_nat i = Some c /\
            SmartStrip.plugs self !! i = Some (proxy h p c).
Proof.
  rewrite self_eq. simpl. intros Hi.
  destruct (lookup_lt_is_Some_2 (SysInfo.children info0) (Z.to_nat i)
              ltac:(lia)) as [c Hc].
  exists c. split; [exact Hc|].
  rewrite lookup_map_seqZ_0 by lia. unfold proxies.
  rewrite list_lookup_fmap, Hc. reflexivity.
Qed.

Lemma plugs_out_of_range (i : Z) :
  ~ (0 <= i < SmartStrip.num_children self) ->
  SmartStrip.plugs self !! i = None.
Proof.
  rewrite self_eq. simpl. intros Hi.
  apply lookup_map_seqZ_None. unfold proxies. rewrite length_fmap. lia.
Qed.

Lemma raise_for_index_ok (i : Z) (w : World) :
  0 <= i < SmartStrip.num_children self ->
  SmartStrip.raise_for_index self i w = (Ok tt, w).
Proof.
  intros Hi. destruct (plugs_in_range i Hi) as (c & _ & Hp).
  unfold SmartStrip.raise_for_index. rewrite Hp. reflexivity.
Qed.

Lemma raise_for_index_raises (i : Z) (w : World) :
  ~ (0 <= i < SmartStrip.num_children self) ->
  SmartStrip.raise_for_index self i w = (Raise (SmartStripException i), w).
Proof.
  intros Hi. unfold SmartStrip.raise_for_index.
  rewrite (plugs_out_of_range i Hi). reflexivity.
Qed.

(** *** Index validation and dispatch *)

Ltac not_negative index :=
  replace (index <? 0) with false by (symmetry; apply Z.ltb_ge; lia).

Ltac negative index :=
  replace (index <? 0) with true by (symmetry; apply Z.ltb_lt; lia).

(** The property the strip inherits, on its own (unscoped) record. *)
Lemma strip_has_emeter (s : SmartStrip.t) (w : World) (info : SysInfo.t) :
  query_info (protocol (SmartStrip.base s)) (context (SmartStrip.base s))
             (device w) = Some info ->
  SmartPlug.has_emeter (SmartStrip.base s) w =
  (Ok (bool_decide (has_marker info)),
   after (Fetch (context (SmartStrip.base s))) w).
Proof.
  intros Hq. unfold SmartPlug.has_emeter.
  erewrite bind_ok by (apply sys_info_ok; exact Hq). reflexivity.
Qed.

(** Without the marker the reading is unavailable, whatever the index and
    whatever the strip's proxies: the capability check comes first. *)
Lemma emeter_unavailable (s : SmartStrip.t) (index : Z) (w : World)
    (info : SysInfo.t) :
  query_info (protocol (SmartStrip.base s)) (context (SmartStrip.base s))
             (device w) = Some info ->
  ~ has_marker info ->
  SmartStrip.get_emeter_realtime s index w =
  (Ok SmartStrip.EmeterNone, after (Fetch (context (SmartStrip.base s))) w).
Proof.
  intros Hq Hno. unfold SmartStrip.get_emeter_realtime.
  erewrite bind_ok by (apply strip_has_emeter; exact Hq).
  rewrite bool_decide_eq_false_2 by exact Hno. reflexivity.
Qed.

(** With the marker the method goes on to the dispatch on the index. *)
Lemma emeter_available (s : SmartStrip.t) (index : Z) (w : World)
    (info : SysInfo.t) :
  query_info (protocol (SmartStrip.base s)) (context (SmartStrip.base s))
             (device w) = Some info ->
  has_marker info ->
  SmartStrip.get_emeter_realtime s index w =
  (if index <? 0 then
     emeter_status ←
       for_each (Python.range (SmartStrip.num_children s))
         (fun plug (emeter_status : gmap Z (option RawResult)) =>
            p ← SmartStrip.plug_at s plug;
            r ← SmartPlug.get_emeter_realtime p;
            mret (<[plug := r]> emeter_status))
         ∅;
     mret (SmartStrip.EmeterAll emeter_status)
   else
     _ ← SmartStrip.raise_for_index s index;
     p ← SmartStrip.plug_at s index;
     r ← SmartPlug.get_emeter_realtime p;
     mret (match r with
           | Some x => SmartStrip.EmeterOne x
           | None => SmartStrip.EmeterNone
           end))
    (after (Fetch (context (SmartStrip.base s))) w).
Proof.
  intros Hq Hyes. unfold SmartStrip.get_emeter_realtime.
  erewrite bind_ok by (apply strip_has_emeter; exact Hq).
  rewrite bool_decide_eq_true_2 by exact Hyes. reflexivity.
Qed.

(** C2, as amended.  On a strip the constructor returned, every index at or
    above the outlet count makes set_state, is_on, turn_on, turn_off and
    on_since raise SmartStripException with the world untouched, and makes
    get_emeter_realtime raise it after the capability fetch alone when the
    record has the energy-meter marker; every negative index, -2 as well as
    -1, takes the aggregate branch. *)
Theorem index_dispatch (index : Z) (value : Python.object) (w : World) :
  (SmartStrip.num_children self <= index ->
     SmartStrip.set_state self value index w
       = (Raise (SmartStripException index), w) /\
     SmartStrip.is_on self index w = (Raise (SmartStripException index), w) /\
     SmartStrip.turn_on self index w = (Raise (SmartStripException index), w) /\
     SmartStrip.turn_off self index w = (Raise (SmartStripException index), w) /\
     SmartStrip.on_since self index w = (Raise (SmartStripException index), w) /\
     (forall info,
        query_info p None (device w) = Some info -> has_marker info ->
        SmartStrip.get_emeter_realtime self index w
          = (Raise (SmartStripException index), after (Fetch None) w) /\
        commands (trace (after (Fetch None) w)) = commands (trace w)))
  /\ (index < 0 ->
        SmartStrip.set_state self value index w
          = SmartStrip.set_state self value (-1) w /\
        SmartStrip.is_on self index w = SmartStrip.is_on self (-1) w /\
        SmartStrip.turn_on self index w = SmartStrip.turn_on self (-1) w /\
        SmartStrip.turn_off self index w = SmartStrip.turn_off self (-1) w /\
        SmartStrip.on_since self index w = SmartStrip.on_since self (-1) w /\
        SmartStrip.get_emeter_realtime self index w
          = SmartStrip.get_emeter_realtime self (-1) w).
Proof.
  split.
  - intros Hge.
    assert (0 <= index) as Hpos by (rewrite num_children_eq in Hge; lia).
    assert (~ (0 <= index < SmartStrip.num_children self)) as Hout by lia.
    pose proof (raise_for_index_raises index w Hout) as Hr.
    repeat split.
    + unfold SmartStrip.set_state. not_negative index.
      apply (bind_raise _ _ _ _ _ Hr).
    + unfold SmartStrip.is_on. not_negative index.
      apply (bind_raise _ _ _ _ _ Hr).
    + unfold SmartStrip.turn_on. not_negative index.
      apply (bind_raise _ _ _ _ _ Hr).
    + unfold SmartStrip.turn_off. not_negative index.
      apply (bind_raise _ _ _ _ _ Hr).
    + unfold SmartStrip.on_since. not_negative index.
      apply (bind_raise _ _ _ _ _ Hr).
    + pose proof base_eq as Hb.
      rewrite (emeter_available self index w info)
        by (rewrite ?Hb; simpl; assumption).
      not_negative index. rewrite Hb. simpl context.
      apply bind_raise. apply raise_for_index_raises. exact Hout.
    + apply commands_after_fetch.
  - intros Hneg.
    unfold SmartStrip.set_state, SmartStrip.is_on, SmartStrip.turn_on,
      SmartStrip.turn_off, SmartStrip.on_since, SmartStrip.get_emeter_realtime.
    negative index. repeat split; reflexivity.
Qed.

(** *** Setting the state through the strip *)

Lemma proxy_set_state_trace (q : SmartDevice) (value : Python.object) (b : Z)
    (w : World) :
  (says on_tokens value /\ b = 1) \/ (says off_tokens value /\ b = 0) ->
  trace (snd (SmartPlug.set_state q value w)) =
  (trace w ++ [Send (set_relay_state (context q) b)])%list.
Proof.
  intros Hv. unfold SmartPlug.set_state, SmartPlug.encodeState.
  destruct value as [s| | | |]; simpl in Hv; try tauto.
  unfold SmartPlug.SWITCH_STATE_ON, SmartPlug.SWITCH_STATE_OFF.
  rewrite eqb_upper_ON, eqb_upper_OFF.
  destruct Hv as [[Hs ->] | [Hs ->]].
  - rewrite bool_decide_eq_true_2 by exact Hs. apply proxy_turn_trace.
  - rewrite (bool_decide_eq_false_2 (s ∈ on_tokens))
      by (intros Hon; exact (tokens_disjoint _ Hon Hs)).
    rewrite bool_decide_eq_true_2 by exact Hs. apply proxy_turn_trace.
Qed.

(** C5.  On a strip the constructor returned, set_state with a case variant
    of "ON" or "OFF" and index -1 makes exactly one round trip, the
    whole-strip [set_relay_state] command, which carries no outlet context;
    with an index i below the outlet count it makes exactly one round trip,
    the [set_relay_state] command scoped to the id of child i. *)
Theorem set_state_one_command (value : Python.object) (b : Z) (w : World) :
  (says on_tokens value /\ b = 1) \/ (says off_tokens value /\ b = 0) ->
  trace (snd (SmartStrip.set_state self value (-1) w)) =
    (trace w ++ [Send (set_relay_state None b)])%list
  /\ forall i, 0 <= i < SmartStrip.num_children self ->
       exists c, SysInfo.children info0 !! Z.to_nat i = Some c /\
         trace (snd (SmartStrip.set_state self value i w)) =
           (trace w ++ [Send (set_relay_state (Some (Child.id c)) b)])%list.
Proof.
  intros Hv. split.
  - change (SmartStrip.set_state self value (-1) w)
      with (SmartStrip.state_setter self value w).
    pose proof (state_write_cases_trace := strip_turn_all_trace self (-1) w).
    rewrite strip_setter_cases, base_eq in *. simpl context in *.
    destruct Hv as [[Hs ->] | [Hs ->]].
    + rewrite decide_True by exact Hs. apply state_write_cases_trace. lia.
    + rewrite decide_False.
      * rewrite decide_True by exact Hs. apply state_write_cases_trace. lia.
      * destruct value; simpl in *; try tauto.
        intros Hon. exact (tokens_disjoint _ Hon Hs).
  - intros i Hi. destruct (plugs_in_range i Hi) as (c & Hc & Hp).
    exists c. split; [exact Hc|].
    unfold SmartStrip.set_state. not_negative i.
    erewrite bind_ok by (apply raise_for_index_ok; exact Hi).
    unfold SmartStrip.plug_at. rewrite Hp. simpl or_raise.
    erewrite bind_ok by reflexivity.
    apply (proxy_set_state_trace (proxy h p c) value b w Hv).
Qed.

(** *** Aggregate reads *)

Lemma lookup_collected {V : Type} (f : Child.t -> V) (l : list Child.t)
    (k : nat) (i : Z) :
  (k <= length l)%nat ->
  map_seqZ (M := gmap Z V) 0 (f <$> take k l) !! i =
  if decide (0 <= i < Z.of_nat k) then f <$> l !! Z.to_nat i else None.
Proof.
  intros Hk. case_decide as Hi.
  - rewrite lookup_map_seqZ_0 by lia.
    rewrite list_lookup_fmap, lookup_take_lt by lia. reflexivity.
  - apply lookup_map_seqZ_None. rewrite length_fmap, length_take. lia.
Qed.

(** The loop of an aggregate read over a fresh record that still lists every
    outlet of the strip. *)
Lemma aggregate_read {V : Type} (f : Child.t -> V) (children : list Child.t)
    (w : World) :
  SmartStrip.num_children self <= Z.of_nat (length children) ->
  exists d : gmap Z V,
    for_each (Python.range (SmartStrip.num_children self))
      (fun plug (d : gmap Z V) =>
         child ← or_raise (Python.getitem children plug) IndexError;
         mret (<[plug := f child]> d))
      ∅ w = (Ok d, w) /\
    forall i, d !! i =
      if decide (0 <= i < SmartStrip.num_children self)
      then f <$> children !! Z.to_nat i else None.
Proof.
  rewrite num_children_eq. intros Hn.
  eexists. split.
  - apply for_each_collect. lia.
  - intros i. apply lookup_collected. lia.
Qed.

(** C7.  On a strip the constructor returned, on_since with index -1 returns
    the dictionary that maps every outlet position to the raw [on_time] field
    of that child in the fresh record (seconds, not a timestamp), after one
    fetch; with an index below the outlet count it passes the index check and
    returns what the on_since of that outlet's proxy returns, a timestamp; at
    or above the outlet count it raises SmartStripException. *)
Theorem on_since_asymmetry (w : World) (info : SysInfo.t) :
  query_info p None (device w) = Some info ->
  SmartStrip.num_children self <= Z.of_nat (length (SysInfo.children info)) ->
  (exists d : gmap Z Z,
     SmartStrip.on_since self (-1) w
       = (Ok (SmartStrip.OnTimeAll d), after (Fetch None) w) /\
     forall i, d !! i =
       if decide (0 <= i < SmartStrip.num_children self)
       then Child.on_time <$> SysInfo.children info !! Z.to_nat i else None)
  /\ (forall i, 0 <= i < SmartStrip.num_children self ->
       exists c, SysInfo.children info0 !! Z.to_nat i = Some c /\
         SmartStrip.on_since self i w =
           (SmartPlug.on_since (proxy h p c)
              ≫= fun t => mret (SmartStrip.OnSinceOne t)) w)
  /\ (forall i, SmartStrip.num_children self <= i ->
       SmartStrip.on_since self i w = (Raise (SmartStripException i), w)).
Proof.
  intros Hq Hn. split; [|split].
  - destruct (aggregate_read Child.on_time (SysInfo.children info)
                (after (Fetch None) w) Hn) as (d & Hd & Hlook).
    exists d. split; [|exact Hlook].
    unfold SmartStrip.on_since. simpl.
    erewrite bind_ok by (apply sys_info_ok; rewrite base_eq; exact Hq).
    rewrite base_eq. simpl context.
    erewrite bind_ok by exact Hd. reflexivity.
  - intros i Hi. destruct (plugs_in_range i Hi) as (c & Hc & Hp).
    exists c. split; [exact Hc|].
    unfold SmartStrip.on_since. not_negative i.
    erewrite bind_ok by (apply raise_for_index_ok; exact Hi).
    unfold SmartStrip.plug_at. rewrite Hp. reflexivity.
  - intros i Hi.
    assert (~ (0 <= i < SmartStrip.num_children self)) as Hout by lia.
    assert (0 <= i) by (rewrite num_children_eq in Hi; lia).
    unfold SmartStrip.on_since. not_negative i.
    apply bind_raise, raise_for_index_raises, Hout.
Qed.

(** *** Is the relay on *)

Lemma plug_state_decodes (q : SmartDevice) (w : World) (info : SysInfo.t) :
  query_info (protocol q) (context q) (device w) = Some info ->
  SmartMultiPlug.state q w =
  let w' := after (Fetch (context q)) w in
  let v := SysInfo.relay_state info in
  if decide (v = 0) then (Ok "OFF", w')
  else if decide (v = 1) then (Ok "ON", w')
  else (Ok "UNKNOWN",
        mkWorld (device w') (clock w') (trace w') (warnings w' ++ [v])%list).
Proof.
  intros Hq. unfold SmartMultiPlug.state.
  erewrite bind_ok by (apply sys_info_ok; exact Hq). simpl.
  destruct (Z.eqb_spec (SysInfo.relay_state info) 0) as [E0|E0].
  - rewrite decide_True by exact E0. reflexivity.
  - rewrite decide_False by exact E0.
    destruct (Z.eqb_spec (SysInfo.relay_state info) 1) as [E1|E1].
    + rewrite decide_True by exact E1. reflexivity.
    + rewrite decide_False by exact E1. reflexivity.
Qed.

Lemma bool_of_int_true (v : Z) : Python.bool_of_int v = true <-> v <> 0.
Proof.
  unfold Python.bool_of_int. destruct (Z.eqb_spec v 0); simpl; split;
    congruence.
Qed.

(** C9.  On the single-relay device is_on returns true exactly when the raw
    relay value is nonzero, also when the value is outside 0 and 1, where the
    state read gives UNKNOWN; on a strip the constructor returned, is_on with
    index -1 returns the dictionary that gives, for every outlet position,
    true exactly when the [relay_state] field of that child is nonzero. *)
Theorem is_on_nonzero (q : SmartDevice) (w : World) (info_q info : SysInfo.t) :
  query_info (protocol q) (context q) (device w) = Some info_q ->
  query_info p None (device w) = Some info ->
  SmartStrip.num_children self <= Z.of_nat (length (SysInfo.children info)) ->
  (exists b,
     SmartMultiPlug.is_on q w = (Ok b, after (Fetch (context q)) w) /\
     (b = true <-> SysInfo.relay_state info_q <> 0) /\
     (SysInfo.relay_state info_q <> 0 -> SysInfo.relay_state info_q <> 1 ->
      b = true /\ fst (SmartMultiPlug.state q w) = Ok "UNKNOWN"))
  /\ (exists d : gmap Z bool,
       SmartStrip.is_on self (-1) w
         = (Ok (SmartStrip.IsOnAll d), after (Fetch None) w) /\
       (forall i, is_Some (d !! i) <-> 0 <= i < SmartStrip.num_children self) /\
       (forall i c, 0 <= i < SmartStrip.num_children self ->
          SysInfo.children info !! Z.to_nat i = Some c ->
          exists b, d !! i = Some b /\
                    (b = true <-> Child.relay_state c <> 0))).
Proof.
  intros Hq_q Hq Hn. split.
  - exists (Python.bool_of_int (SysInfo.relay_state info_q)).
    split; [|split].
    + unfold SmartMultiPlug.is_on.
      erewrite bind_ok by (apply sys_info_ok; exact Hq_q). reflexivity.
    + apply bool_of_int_true.
    + intros H0 H1. split; [apply bool_of_int_true, H0|].
      rewrite (plug_state_decodes q w info_q Hq_q). simpl.
      rewrite !decide_False by assumption. reflexivity.
  - destruct (aggregate_read
                (fun c => Python.bool_of_int (Child.relay_state c))
                (SysInfo.children info) (after (Fetch None) w) Hn)
      as (d & Hd & Hlook).
    exists d. split; [|split].
    + unfold SmartStrip.is_on. simpl.
      erewrite bind_ok by (apply sys_info_ok; rewrite base_eq; exact Hq).
      rewrite base_eq. simpl context.
      erewrite bind_ok by exact Hd. reflexivity.
    + intros i. rewrite Hlook. case_decide as Hi.
      * split; [tauto|]. intros _.
        destruct (lookup_lt_is_Some_2 (SysInfo.children info) (Z.to_nat i)
                    ltac:(lia)) as [c Hc].
        rewrite Hc. eexists. reflexivity.
      * split; [intros [? ?]; discriminate | tauto].
    + intros i c Hi Hc. rewrite Hlook, decide_True, Hc by exact Hi.
      eexists. split; [reflexivity|]. apply bool_of_int_true.
Qed.

(** *** Energy readings *)

Lemma in_turn_snoc {A : Type} (f : SmartDevice -> Py A) (l : list SmartDevice)
    (x : SmartDevice) (w : World) :
  in_turn f (l ++ [x]) w =
  (rs ← in_turn f l; a ← f x; mret (rs ++ [a])%list) w.
Proof.
  revert w. induction l as [|y l IH]; intros w; simpl; py_unfold.
  - destruct (f x w) as [[a|e] w']; reflexivity.
  - destruct (f y w) as [[b|e] w']; [|reflexivity].
    rewrite IH. py_unfold.
    destruct (in_turn f l w') as [[rs|e] w'']; [|reflexivity].
    destruct (f x w'') as [[a|e] w3]; reflexivity.
Qed.

Lemma in_turn_length {A : Type} (f : SmartDevice -> Py A)
    (l : list SmartDevice) (w w' : World) (rs : list A) :
  in_turn f l w = (Ok rs, w') -> length rs = length l.
Proof.
  revert w rs. induction l as [|y l IH]; intros w rs; simpl; py_unfold.
  - intros E. injection E as <- _. reflexivity.
  - destruct (f y w) as [[b|e] wa]; [|discriminate].
    destruct (in_turn f l wa) as [[rs'|e] wb] eqn:E'; [|discriminate].
    intros E. injection E as <- <-. simpl. f_equal. exact (IH _ _ E').
Qed.

(** The loop that asks every proxy of the strip is [in_turn] over the
    proxies, with the answers stored under the outlet positions. *)
Lemma ask_every_proxy {A : Type} (f : SmartDevice -> Py A) (k : nat)
    (w : World) :
  (k <= length (SysInfo.children info0))%nat ->
  for_each (Python.range (Z.of_nat k))
    (fun plug (d : gmap Z A) =>
       q ← SmartStrip.plug_at self plug;
       r ← f q;
       mret (<[plug := r]> d))
    ∅ w
  = (rs ← in_turn f (take k (proxies h p (SysInfo.children info0)));
     mret (map_seqZ 0 rs)) w.
Proof.
  induction k as [|k IH]; intros Hk.
  - reflexivity.
  - rewrite range_S, for_each_app, bind_unfold, IH by lia.
    destruct (plugs_in_range (Z.of_nat k)
                ltac:(rewrite num_children_eq; lia)) as (c & Hc & Hp).
    rewrite Nat2Z.id in Hc.
    assert (proxies h p (SysInfo.children info0) !! k = Some (proxy h p c))
      as Hpk by (unfold proxies; rewrite list_lookup_fmap, Hc; reflexivity).
    rewrite (take_S_r _ _ _ Hpk), !bind_unfold, in_turn_snoc.
    py_unfold.
    destruct (in_turn f (take k (proxies h p (SysInfo.children info0))) w)
      as [[rs|e] w'] eqn:Ers; [|reflexivity].
    unfold SmartStrip.plug_at. rewrite Hp. py_unfold.
    destruct (f (proxy h p c) w') as [[a|e] w'']; [|reflexivity].
    rewrite map_seqZ_snoc.
    rewrite (in_turn_length _ _ _ _ _ Ers), length_take.
    unfold proxies. rewrite length_fmap, Nat.min_l by lia. reflexivity.
Qed.

(** C8.  On a strip the constructor returned, the inherited has_emeter is the
    rule of the single-relay device: the marker is among the feature tags
    split on ':'.  Without the marker get_emeter_realtime returns None for
    every index, the fetch being the only round trip (no command); with the
    marker, a negative index returns the dictionary of the readings obtained
    by asking every proxy in turn, first outlet to last. *)
Theorem emeter_capability (index : Z) (w : World) (info : SysInfo.t) :
  query_info p None (device w) = Some info ->
  SmartMultiPlug.has_emeter (SmartStrip.base self) w
    = (Ok (bool_decide (has_marker info)), after (Fetch None) w)
  /\ (~ has_marker info ->
       SmartStrip.get_emeter_realtime self index w
         = (Ok SmartStrip.EmeterNone, after (Fetch None) w) /\
       commands (trace (after (Fetch None) w)) = commands (trace w))
  /\ (has_marker info -> index < 0 ->
       SmartStrip.get_emeter_realtime self index w =
       (rs ← in_turn SmartPlug.get_emeter_realtime
               (proxies h p (SysInfo.children info0));
        mret (SmartStrip.EmeterAll (map_seqZ 0 rs))) (after (Fetch None) w)).
Proof.
  intros Hq. pose proof base_eq as Hb.
  assert (query_info (protocol (SmartStrip.base self))
            (context (SmartStrip.base self)) (device w) = Some info) as Hq'
    by (rewrite Hb; exact Hq).
  split; [|split].
  - unfold SmartMultiPlug.has_emeter.
    erewrite bind_ok by (apply sys_info_ok; exact Hq').
    rewrite Hb. simpl. unfold mret, Py_ret, py_ret. do 2 f_equal.
    rewrite contains_elem_of. apply bool_decide_ext. reflexivity.
  - intros Hno. split; [|apply commands_after_fetch].
    rewrite (emeter_unavailable self index w info Hq' Hno), Hb. reflexivity.
  - intros Hyes Hneg.
    rewrite (emeter_available self index w info Hq' Hyes), Hb. simpl context.
    negative index. rewrite bind_unfold.
    rewrite num_children_eq, ask_every_proxy by lia.
    rewrite firstn_all2 by (unfold proxies; rewrite length_fmap; lia).
    rewrite !bind_unfold.
    destruct (in_turn _ _ _) as [[rs|e] w']; reflexivity.
Qed.

End Constructed.

(** C10.  On any strip whose record lacks the energy-meter marker,
    get_emeter_realtime returns None for every index, inside or outside the
    outlet range, with or without a proxy under that index: the capability
    check comes before the index check, so SmartStripException is never
    raised. *)
Theorem emeter_check_precedes_index `{SmartDeviceConstants}
    (s : SmartStrip.t) (index : Z) (w : World) (info : SysInfo.t) :
  query_info (protocol (SmartStrip.base s)) (context (SmartStrip.base s))
             (device w) = Some info ->
  ~ has_marker info ->
  fst (SmartStrip.get_emeter_realtime s index w) = Ok SmartStrip.EmeterNone /\
  (forall i, fst (SmartStrip.get_emeter_realtime s index w)
             <> Raise (SmartStripException i)) /\
  (forall i, fst (SmartStrip.raise_for_index s index w)
             = Raise (SmartStripException i) <->
             SmartStrip.plugs s !! index = None /\ i = index).
Proof.
  intros Hq Hno.
  rewrite (emeter_unavailable s index w info Hq Hno). simpl.
  split; [reflexivity|]. split; [discriminate|].
  intros i. unfold SmartStrip.raise_for_index.
  destruct (SmartStrip.plugs s !! index); simpl; split.
  - discriminate.
  - intros [? _]. discriminate.
  - intros E. injection E as ->. auto.
  - intros [_ ->]. reflexivity.
Qed.

(** ** Reading the state *)

(** What the loop of [SmartStrip.state] computes over the first [k] children:
    every outlet whose [state] field is 1 reads ON, every other outlet, the
    ones holding 0 included, reads UNKNOWN and logs a warning. *)
Lemma strip_state_loop (self : SmartStrip.t) (children : list Child.t)
    (k : nat) (w : World) :
  (k <= length children)%nat ->
  exists sw,
    for_each (Python.range (Z.of_nat k))
      (fun plug '(states, switch_state) =>
         child ← or_raise (Python.getitem children plug) IndexError;
         let relay_state := Child.state child in
         let switch_state : option string :=
           if relay_state =? 0 then Some SmartPlug.SWITCH_STATE_OFF
           else switch_state in
         switch_state ←
           (if relay_state =? 1 then mret SmartPlug.SWITCH_STATE_ON
            else _ ← warning relay_state;
                 mret SmartPlug.SWITCH_STATE_UNKNOWN);
         mret (<[plug := switch_state]> states, Some switch_state))
      ((∅ : gmap Z string), (None : option string)) w
    = (Ok (map_seqZ 0 ((fun c => if Child.state c =? 1 then "ON" else "UNKNOWN")
                         <$> take k children), sw),
       mkWorld (device w) (clock w) (trace w)
         (warnings w ++ List.filter (fun v => negb (v =? 1))
                          (Child.state <$> take k children))%list).
Proof.
  induction k as [|k IH]; intros Hk.
  - exists None. simpl. rewrite app_nil_r. destruct w; reflexivity.
  - destruct (IH ltac:(lia)) as [sw IHk].
    destruct (lookup_lt_is_Some_2 children k ltac:(lia)) as [c Hc].
    rewrite range_S, (take_S_r _ _ _ Hc), !fmap_app.
    change ((fun c => if Child.state c =? 1 then "ON" else "UNKNOWN") <$> [c])
      with [if Child.state c =? 1 then "ON" else "UNKNOWN"].
    change (Child.state <$> [c]) with [Child.state c].
    rewrite map_seqZ_snoc, List.filter_app, app_assoc.
    rewrite length_fmap, length_take, Nat.min_l by lia.
    exists (Some (if Child.state c =? 1 then "ON" else "UNKNOWN")).
    rewrite for_each_app. erewrite bind_ok by exact IHk.
    simpl for_each. rewrite getitem_nat, Hc by lia.
    py_unfold. unfold warning. simpl.
    destruct (Child.state c =? 1); simpl; rewrite ?app_nil_r; reflexivity.
Qed.

(** The state read of the strip, on a fresh record that still lists every
    outlet. *)
Lemma strip_state_decodes (self : SmartStrip.t) (w : World) (info : SysInfo.t) :
  query_info (protocol (SmartStrip.base self)) (context (SmartStrip.base self))
             (device w) = Some info ->
  0 <= SmartStrip.num_children self <= Z.of_nat (length (SysInfo.children info)) ->
  exists d w',
    SmartStrip.state self w = (Ok d, w') /\
    forall i c, 0 <= i < SmartStrip.num_children self ->
      SysInfo.children info !! Z.to_nat i = Some c ->
      d !! i = Some (if Child.state c =? 1 then "ON" else "UNKNOWN").
Proof.
  intros Hq Hn. unfold SmartStrip.state.
  erewrite bind_ok by (apply sys_info_ok; exact Hq).
  rewrite <- (Z2Nat.id (SmartStrip.num_children self)) by lia.
  destruct (strip_state_loop self (SysInfo.children info)
              (Z.to_nat (SmartStrip.num_children self))
              (after (Fetch (context (SmartStrip.base self))) w)
              ltac:(lia)) as [sw Hloop].
  erewrite bind_ok by exact Hloop.
  eexists _, _. split; [reflexivity|].
  intros i c Hi Hc. simpl. rewrite lookup_map_seqZ_0 by lia.
  rewrite list_lookup_fmap, lookup_take_lt, Hc by lia. reflexivity.
Qed.

(** On one raw value the two state reads agree unless the value is 0: the
    single-relay device over a record whose relay field is [v], the strip over
    a record whose outlet [i] holds [v]. *)
Lemma decodings_agree_off_zero (q : SmartDevice) (self : SmartStrip.t)
    (w : World) (info_q info : SysInfo.t) (i : Z) (c : Child.t) :
  query_info (protocol q) (context q) (device w) = Some info_q ->
  query_info (protocol (SmartStrip.base self)) (context (SmartStrip.base self))
             (device w) = Some info ->
  0 <= SmartStrip.num_children self <= Z.of_nat (length (SysInfo.children info)) ->
  0 <= i < SmartStrip.num_children self ->
  SysInfo.children info !! Z.to_nat i = Some c ->
  Child.state c = SysInfo.relay_state info_q ->
  SysInfo.relay_state info_q <> 0 ->
  exists d s, fst (SmartStrip.state self w) = Ok d /\
              fst (SmartMultiPlug.state q w) = Ok s /\
              d !! i = Some s.
Proof.
  intros Hq_q Hq Hn Hi Hc Hv Hnz.
  destruct (strip_state_decodes self w info Hq Hn) as (d & w' & Hst & Hd).
  exists d, (if SysInfo.relay_state info_q =? 1 then "ON" else "UNKNOWN").
  rewrite Hst, (Hd i c Hi Hc), Hv, (plug_state_decodes q w info_q Hq_q). simpl.
  rewrite decide_False by exact Hnz.
  destruct (Z.eqb_spec (SysInfo.relay_state info_q) 1) as [E|E].
  - rewrite decide_True by exact E. auto.
  - rewrite decide_False by exact E. auto.
Qed.

(** The index given to [on_since] has no part in its result. *)
Lemma on_since_idx_unused (q : SmartDevice) (idx : Z) (w : World) :
  SmartMultiPlug.on_since q idx w = SmartMultiPlug.on_since q 0 w.
Proof. reflexivity. Qed.

(** C1.  The state read of the strip at an outlet whose [state] field is 0:
    the four-outlet sample strip, outlets 0 and 3 holding 0 and outlets 1 and
    2 holding 1, reads UNKNOWN, ON, ON, UNKNOWN and logs a warning for each of
    the two zeros, where the state read of the single-relay device gives OFF
    for the raw value 0. *)
Theorem strip_state_reads_off_as_unknown :
  Child.state <$> Sample.outlets = [0; 1; 1; 0] /\
  fst (SmartMultiPlug.state Sample.plug (Sample.world (Sample.relay2 0)))
    = Ok "OFF" /\
  fst (SmartStrip.state Sample.strip (Sample.world (Sample.strip4 "TIM")))
    = Ok (map_seqZ 0 ["UNKNOWN"; "ON"; "ON"; "UNKNOWN"]) /\
  warnings (snd (SmartStrip.state Sample.strip
                   (Sample.world (Sample.strip4 "TIM")))) = [0; 0].
Proof. repeat split; vm_compute; reflexivity. Qed.

(** C3.  The two state decodings on the same raw value 0: over the record
    whose relay field and whose only child both hold 0, the single-relay
    device reads OFF and the strip reads UNKNOWN for that outlet; on the raw
    value 1 both read ON. *)
Theorem decodings_differ_at_zero :
  SysInfo.relay_state (Sample.single 0) = 0 /\
  Child.state <$> SysInfo.children (Sample.single 0) = [0] /\
  fst (SmartMultiPlug.state Sample.plug (Sample.world (Sample.single 0)))
    = Ok "OFF" /\
  fst (SmartStrip.state Sample.strip1 (Sample.world (Sample.single 0)))
    = Ok {[ 0 := "UNKNOWN" ]} /\
  fst (SmartMultiPlug.state Sample.plug (Sample.world (Sample.single 1)))
    = Ok "ON" /\
  fst (SmartStrip.state Sample.strip1 (Sample.world (Sample.single 1)))
    = Ok {[ 0 := "ON" ]}.
Proof. repeat split; vm_compute; reflexivity. Qed.

(** C4.  on_since of the single-relay device looks up child 0 whatever index
    it is given.  Over the record with the children 00 (on for 10 s) and 01
    (on for 99 s), every index gets now minus 10 s, index 1 included, whose
    child the lookup would find, and index 5 included, which no child has;
    over the record whose only child is 01, index 1 raises TypeError. *)
Theorem on_since_ignores_index :
  (forall idx,
     SmartMultiPlug.on_since Sample.plug idx (Sample.world (Sample.relay2 1))
     = (Ok (clock (Sample.world (Sample.relay2 1))
            - Python.timedelta_seconds 10),
        after (Fetch None) (Sample.world (Sample.relay2 1)))) /\
  SmartMultiPlug.find_idx 1 (SysInfo.children (Sample.relay2 1))
    = Ok (Some (Sample.child "01" 1 99)) /\
  SmartMultiPlug.find_idx 5 (SysInfo.children (Sample.relay2 1)) = Ok None /\
  SmartMultiPlug.find_idx 1 (SysInfo.children Sample.relay1)
    = Ok (Some (Sample.child "01" 1 99)) /\
  fst (SmartMultiPlug.on_since Sample.plug 1 (Sample.world Sample.relay1))
    = Raise TypeError.
Proof.
  split; [intros idx|]; repeat split; vm_compute; reflexivity.
Qed.

(** C2, the claim as stated fails.  On the four-outlet sample strip the
    index -2 is neither -1 nor an outlet index, yet turn_off(index=-2) returns
    normally after sending the whole-strip command; and with a record that
    lacks the energy-meter marker get_emeter_realtime(index=4) returns None
    without raising. *)
Lemma index_minus_two_not_rejected :
  -2 <> -1 /\
  ~ (0 <= -2 < SmartStrip.num_children Sample.strip) /\
  fst (SmartStrip.turn_off Sample.strip (-2)
         (Sample.world (Sample.strip4 "TIM"))) = Ok tt /\
  commands (trace (snd (SmartStrip.turn_off Sample.strip (-2)
                          (Sample.world (Sample.strip4 "TIM")))))
    = [set_relay_state None 0] /\
  ~ (0 <= 4 < SmartStrip.num_children Sample.strip) /\
  fst (SmartStrip.get_emeter_realtime Sample.strip 4
         (Sample.world (Sample.strip4 "TIM"))) = Ok SmartStrip.EmeterNone.
Proof.
  split; [lia|]. split; [simpl; lia|]. split; [vm_compute; reflexivity|].
  split; [vm_compute; reflexivity|]. split; [simpl; lia|].
  vm_compute; reflexivity.
Qed.

(** ** The theorems at the sample strip *)

(** At index 4 and at index -2 of the four-outlet strip, with the marker. *)
Lemma index_dispatch_witness :
  SmartStrip.num_children Sample.strip <= 4 /\
  -2 < 0 /\
  SmartStrip.turn_off Sample.strip 4 (Sample.world (Sample.strip4 "TIM:ENE"))
    = (Raise (SmartStripException 4), Sample.world (Sample.strip4 "TIM:ENE")) /\
  SmartStrip.get_emeter_realtime Sample.strip 4
    (Sample.world (Sample.strip4 "TIM:ENE"))
    = (Raise (SmartStripException 4),
       after (Fetch None) (Sample.world (Sample.strip4 "TIM:ENE"))) /\
  SmartStrip.is_on Sample.strip (-2) (Sample.world (Sample.strip4 "TIM:ENE"))
    = SmartStrip.is_on Sample.strip (-1) (Sample.world (Sample.strip4 "TIM:ENE")).
Proof.
  assert (SmartStrip.num_children Sample.strip <= 4) as Hge by (simpl; lia).
  assert (-2 < 0) as Hneg by lia.
  pose proof (fun index =>
    index_dispatch Sample.address Sample.answering
      (Sample.world (Sample.strip4 "TIM:ENE"))
      (after (Fetch None) (Sample.world (Sample.strip4 "TIM:ENE")))
      (Sample.strip4 "TIM:ENE") Sample.strip eq_refl (init_sample "TIM:ENE")
      index (Python.PyStr "ON") (Sample.world (Sample.strip4 "TIM:ENE")))
    as D.
  split; [exact Hge|]. split; [exact Hneg|].
  destruct (D 4) as [Dhigh _]. destruct (D (-2)) as [_ Dlow].
  destruct (Dhigh Hge) as (_ & _ & _ & Hoff & _ & Hem).
  destruct (Dlow Hneg) as (_ & Hison & _).
  split; [exact Hoff|]. split; [|exact Hison].
  apply (Hem (Sample.strip4 "TIM:ENE") eq_refl). by_evaluation.
Defined.

(** Writing "OFF" to the whole strip and to outlet 2. *)
Lemma set_state_one_command_witness :
  says off_tokens (Python.PyStr "OFF") /\
  0 <= 2 < SmartStrip.num_children Sample.strip /\
  trace (snd (SmartStrip.set_state Sample.strip (Python.PyStr "OFF") (-1)
                (Sample.world (Sample.strip4 "TIM"))))
    = [Send (set_relay_state None 0)] /\
  exists c, Sample.outlets !! 2%nat = Some c /\
    trace (snd (SmartStrip.set_state Sample.strip (Python.PyStr "OFF") 2
                  (Sample.world (Sample.strip4 "TIM"))))
      = [Send (set_relay_state (Some (Child.id c)) 0)].
Proof.
  assert (says off_tokens (Python.PyStr "OFF")) as Hoff by by_evaluation.
  assert (0 <= 2 < SmartStrip.num_children Sample.strip) as Hi by (simpl; lia).
  destruct (set_state_one_command Sample.address Sample.answering
              (Sample.world (Sample.strip4 "TIM"))
              (after (Fetch None) (Sample.world (Sample.strip4 "TIM")))
              (Sample.strip4 "TIM") Sample.strip eq_refl (init_sample "TIM")
              (Python.PyStr "OFF") 0 (Sample.world (Sample.strip4 "TIM"))
              (or_intror (conj Hoff eq_refl))) as [Hall Hone].
  split; [exact Hoff|]. split; [exact Hi|]. split; [exact Hall|].
  exact (Hone 2 Hi).
Defined.

(** The aggregate on-time read of the four-outlet strip. *)
Lemma on_since_asymmetry_witness :
  SmartStrip.num_children Sample.strip
    <= Z.of_nat (length (SysInfo.children (Sample.strip4 "TIM"))) /\
  (exists d : gmap Z Z,
     SmartStrip.on_since Sample.strip (-1) (Sample.world (Sample.strip4 "TIM"))
       = (Ok (SmartStrip.OnTimeAll d),
          after (Fetch None) (Sample.world (Sample.strip4 "TIM"))) /\
     forall i, d !! i =
       if decide (0 <= i < SmartStrip.num_children Sample.strip)
       then Child.on_time <$> Sample.outlets !! Z.to_nat i else None).
Proof.
  assert (SmartStrip.num_children Sample.strip
            <= Z.of_nat (length (SysInfo.children (Sample.strip4 "TIM"))))
    as Hn by (simpl; lia).
  split; [exact Hn|].
  apply (on_since_asymmetry Sample.address Sample.answering
           (Sample.world (Sample.strip4 "TIM"))
           (after (Fetch None) (Sample.world (Sample.strip4 "TIM")))
           (Sample.strip4 "TIM") Sample.strip eq_refl (init_sample "TIM")
           (Sample.world (Sample.strip4 "TIM")) (Sample.strip4 "TIM")
           eq_refl Hn).
Defined.

(** The four-outlet strip without and with the marker. *)
Lemma emeter_capability_witness :
  ~ has_marker (Sample.strip4 "TIM") /\
  SmartStrip.get_emeter_realtime Sample.strip 2
    (Sample.world (Sample.strip4 "TIM"))
    = (Ok SmartStrip.EmeterNone,
       after (Fetch None) (Sample.world (Sample.strip4 "TIM"))) /\
  has_marker (Sample.strip4 "TIM:ENE") /\
  SmartStrip.get_emeter_realtime Sample.strip (-1)
    (Sample.world (Sample.strip4 "TIM:ENE"))
    = (rs ← in_turn SmartPlug.get_emeter_realtime
              (proxies Sample.address Sample.answering Sample.outlets);
       mret (SmartStrip.EmeterAll (map_seqZ 0 rs)))
        (after (Fetch None) (Sample.world (Sample.strip4 "TIM:ENE"))).
Proof.
  assert (~ has_marker (Sample.strip4 "TIM")) as Hno by by_evaluation.
  assert (has_marker (Sample.strip4 "TIM:ENE")) as Hyes by by_evaluation.
  split; [exact Hno|]. split.
  - apply (emeter_capability Sample.address Sample.answering
             (Sample.world (Sample.strip4 "TIM"))
             (after (Fetch None) (Sample.world (Sample.strip4 "TIM")))
             (Sample.strip4 "TIM") Sample.strip eq_refl (init_sample "TIM")
             2 (Sample.world (Sample.strip4 "TIM")) (Sample.strip4 "TIM")
             eq_refl).
    exact Hno.
  - split; [exact Hyes|].
    apply (emeter_capability Sample.address Sample.answering
             (Sample.world (Sample.strip4 "TIM"))
             (after (Fetch None) (Sample.world (Sample.strip4 "TIM")))
             (Sample.strip4 "TIM") Sample.strip eq_refl (init_sample "TIM")
             (-1) (Sample.world (Sample.strip4 "TIM:ENE"))
             (Sample.strip4 "TIM:ENE") eq_refl); [exact Hyes | lia].
Defined.

(** is_on over the record of the four-outlet strip. *)
Lemma is_on_nonzero_witness :
  (exists b,
     SmartMultiPlug.is_on Sample.plug (Sample.world (Sample.strip4 "TIM"))
       = (Ok b, after (Fetch None) (Sample.world (Sample.strip4 "TIM"))) /\
     (b = true <-> SysInfo.relay_state (Sample.strip4 "TIM") <> 0) /\
     (SysInfo.relay_state (Sample.strip4 "TIM") <> 0 ->
      SysInfo.relay_state (Sample.strip4 "TIM") <> 1 ->
      b = true /\
      fst (SmartMultiPlug.state Sample.plug (Sample.world (Sample.strip4 "TIM")))
        = Ok "UNKNOWN"))
  /\ (exists d : gmap Z bool,
       SmartStrip.is_on Sample.strip (-1) (Sample.world (Sample.strip4 "TIM"))
         = (Ok (SmartStrip.IsOnAll d),
            after (Fetch None) (Sample.world (Sample.strip4 "TIM"))) /\
       (forall i, is_Some (d !! i)
                  <-> 0 <= i < SmartStrip.num_children Sample.strip) /\
       (forall i c, 0 <= i < SmartStrip.num_children Sample.strip ->
          Sample.outlets !! Z.to_nat i = Some c ->
          exists b, d !! i = Some b /\ (b = true <-> Child.relay_state c <> 0))).
Proof.
  apply (is_on_nonzero Sample.address Sample.answering
           (Sample.world (Sample.strip4 "TIM"))
           (after (Fetch None) (Sample.world (Sample.strip4 "TIM")))
           (Sample.strip4 "TIM") Sample.strip eq_refl (init_sample "TIM")
           Sample.plug (Sample.world (Sample.strip4 "TIM"))
           (Sample.strip4 "TIM") (Sample.strip4 "TIM") eq_refl eq_refl).
  simpl. lia.
Defined.

(** Index 7 of the four-outlet strip, without the marker. *)
Lemma emeter_check_precedes_index_witness :
  ~ has_marker (Sample.strip4 "TIM") /\
  SmartStrip.plugs Sample.strip !! 7 = None /\
  fst (SmartStrip.get_emeter_realtime Sample.strip 7
         (Sample.world (Sample.strip4 "TIM"))) = Ok SmartStrip.EmeterNone.
Proof.
  assert (~ has_marker (Sample.strip4 "TIM")) as Hno by by_evaluation.
  split; [exact Hno|]. split; [reflexivity|].
  apply (emeter_check_precedes_index Sample.strip 7
           (Sample.world (Sample.strip4 "TIM")) (Sample.strip4 "TIM")
           eq_refl Hno).
Defined.

(** * Further properties of the two classes *)

(** ** Looking a child up by the index its id ends in *)

(** The loop of [_get_idx_info] answers with a child exactly when that child
    is the first whose suffix reads as [id] and every child before it has a
    suffix that reads as some other integer. *)
Lemma find_idx_found (id : Z) (cs : list Child.t) (c : Child.t) :
  SmartMultiPlug.find_idx id cs = Ok (Some c) <->
  exists pre post,
    cs = (pre ++ c :: post)%list /\
    Python.int (Python.last_two (Child.id c)) = Some id /\
    Forall (fun c' => exists n,
              Python.int (Python.last_two (Child.id c')) = Some n /\ n <> id)
           pre.
Proof.
  induction cs as [|a cs IH]; simpl.
  - split; [discriminate|].
    intros (pre & post & E & _). destruct pre; discriminate E.
  - destruct (Python.int (Python.last_two (Child.id a))) as [n|] eqn:En.
    + destruct (Z.eqb_spec id n) as [<-|Hne].
      * split.
        -- intros E. injection E as <-. exists [], cs. auto.
        -- intros ([|b pre] & post & E & Hc & Hpre).
           ++ injection E as <- _. reflexivity.
           ++ injection E as <- _. inversion Hpre as [|? ? (m & Hm & Hmne)]; subst.
              congruence.
      * rewrite IH. split.
        -- intros (pre & post & -> & Hc & Hpre). exists (a :: pre), post.
           split; [reflexivity|]. split; [exact Hc|].
           constructor; [|exact Hpre]. exists n. auto.
        -- intros ([|b pre] & post & E & Hc & Hpre).
           ++ injection E as <- _. congruence.
           ++ injection E as <- ->. inversion Hpre; subst.
              exists pre, post. auto.
    + split; [discriminate|].
      intros ([|b pre] & post & E & Hc & Hpre).
      * injection E as <- _. congruence.
      * injection E as <- _. inversion Hpre as [|? ? (m & Hm & _)]; subst.
        congruence.
Qed.






(** ** The indices an id can encode *)

Lemma length_substring (n m : nat) (s : string) :
  (String.length (substring n m s) <= m)%nat.
Proof.
  revert n m. induction s as [|a s IH]; intros n m.
  - destruct n, m; simpl; lia.
  - destruct n as [|n]; simpl.
    + destruct m as [|m]; simpl; [lia|]. specialize (IH 0%nat m). lia.
    + apply IH.
Qed.

Lemma length_list_ascii (s : string) :
  length (list_ascii_of_string s) = String.length s.
Proof. induction s as [|a s IH]; simpl; [reflexivity | f_equal; exact IH]. Qed.

Lemma length_lstrip (l : list ascii) :
  (length (Python.lstrip l) <= length l)%nat.
Proof.
  induction l as [|a l IH]; simpl; [lia|].
  destruct (Python.is_space a); simpl; lia.
Qed.

Lemma length_strip (l : list ascii) :
  (length (Python.strip l) <= length l)%nat.
Proof.
  unfold Python.strip. rewrite length_rev.
  etransitivity; [apply length_lstrip|]. rewrite length_rev.
  apply length_lstrip.
Qed.

Lemma digit_value_range (c : ascii) :
  Python.is_digit c = true -> 0 <= Python.digit_value c <= 9.
Proof.
  unfold Python.is_digit, Python.digit_value.
  rewrite andb_true_iff, !Nat.leb_le. lia.
Qed.

(** What [int()] reads from at most two characters lies between -9 and 99. *)
Lemma int_two_chars (s : string) (n : Z) :
  (String.length s <= 2)%nat -> Python.int s = Some n -> -9 <= n <= 99.
Proof.
  intros Hlen. unfold Python.int.
  pose proof (length_strip (list_ascii_of_string s)) as Hs.
  rewrite length_list_ascii in Hs.
  destruct (Python.strip (list_ascii_of_string s)) as [|c1 [|c2 [|c3 l]]];
    simpl in Hs; try lia; try discriminate.
  - (* one character *)
    destruct (Ascii.eqb c1 "-"); [discriminate|].
    destruct (Ascii.eqb c1 "+"); [discriminate|].
    simpl. destruct (Python.is_digit c1) eqn:D1.
    + intros E. injection E as <-. pose proof (digit_value_range c1 D1). lia.
    + destruct (Ascii.eqb c1 "_"); discriminate.
  - (* two characters *)
    assert (forall m, Python.digits 0 false [c2] = Some m -> 0 <= m <= 9) as H2.
    { simpl. destruct (Python.is_digit c2) eqn:D2.
      - intros m E. injection E as <-. pose proof (digit_value_range c2 D2). lia.
      - destruct (Ascii.eqb c2 "_"); discriminate. }
    destruct (Ascii.eqb c1 "-").
    { destruct (Python.digits 0 false [c2]) as [m|] eqn:E2; [|discriminate].
      simpl. intros E. injection E as <-. specialize (H2 m eq_refl). lia. }
    destruct (Ascii.eqb c1 "+"); [intros E; specialize (H2 _ E); lia|].
    simpl. destruct (Python.is_digit c1) eqn:D1.
    + pose proof (digit_value_range c1 D1).
      destruct (Python.is_digit c2) eqn:D2.
      * intros E. injection E as <-. pose proof (digit_value_range c2 D2). lia.
      * destruct (Ascii.eqb c2 "_"); discriminate.
    + destruct (Ascii.eqb c1 "_"); discriminate.
Qed.

(** X3.  Only two characters of an id are read, so [_get_idx_info(id)] can
    return a child only for an [id] from -9 to 99: a device with more than a
    hundred children has children no index reaches. *)
Theorem get_idx_info_index_range (self : SmartDevice) (id : Z) (w w' : World)
    (c : Child.t) :
  SmartMultiPlug._get_idx_info self id w = (Ok (Some c), w') ->
  -9 <= id <= 99.
Proof.
  unfold SmartMultiPlug._get_idx_info. rewrite bind_unfold.
  destruct (sys_info self w) as [[info|e] w1]; [|discriminate].
  destruct (SmartMultiPlug.find_idx id (SysInfo.children info)) as [[c'|]|e]
    eqn:Ef; try discriminate.
  intros E. injection E as -> _.
  apply find_idx_found in Ef. destruct Ef as (pre & post & _ & Hc & _).
  apply (int_two_chars _ _ (length_substring _ 2 _) Hc).
Qed.

Lemma get_idx_info_index_range_witness :
  SmartMultiPlug._get_idx_info Sample.plug 1 (Sample.world (Sample.relay2 1))
    = (Ok (Some (Sample.child "01" 1 99)),
       after (Fetch None) (Sample.world (Sample.relay2 1)))
  /\ -9 <= 1 <= 99.
Proof.
  assert (SmartMultiPlug._get_idx_info Sample.plug 1
            (Sample.world (Sample.relay2 1))
          = (Ok (Some (Sample.child "01" 1 99)),
             after (Fetch None) (Sample.world (Sample.relay2 1)))) as E
    by (vm_compute; reflexivity).
  split; [exact E|].
  exact (get_idx_info_index_range Sample.plug 1 _ _ _ E).
Defined.



(** ** The on-time of the single-relay device *)





(** ** Writing and reading back *)

(** X5.  The LED of the single-relay device reads as off exactly when the raw
    [led_off] field is 1 (any other raw value, 2 or -1 included, reads as on);
    and behind a transport whose device stores the [off] value of a
    [set_led_off] command and reports its record, reading [led] after setting
    it to [b] gives [b]. *)
Theorem led_round_trip (self : SmartDevice) (b : bool) (w : World) :
  (forall v d, exists res d',
     send_command (protocol self)
       (mkRequest (context self) "system" "set_led_off" [("off", v)]) d
       = Some (res, d') /\
     SysInfo.led_off d' = v) ->
  (forall d, query_info (protocol self) (context self) d = Some d) ->
  (exists r, SmartMultiPlug.led self w = (Ok r, after (Fetch (context self)) w) /\
             (r = false <-> SysInfo.led_off (device w) = 1))
  /\ fst ((SmartMultiPlug.led_setter self b ≫= fun _ => SmartMultiPlug.led self) w)
     = Ok b.
Proof.
  intros Hstore Hread. split.
  - exists (Python.bool_of_int (1 - SysInfo.led_off (device w))). split.
    + unfold SmartMultiPlug.led.
      erewrite bind_ok by (apply sys_info_ok, Hread). reflexivity.
    + unfold Python.bool_of_int.
      destruct (Z.eqb_spec (1 - SysInfo.led_off (device w)) 0); simpl;
        split; intros; try discriminate; lia.
  - destruct (Hstore (if negb b then 1 else 0) (device w))
      as (res & d' & Hsend & Hoff).
    unfold SmartMultiPlug.led_setter, SmartMultiPlug.led, _query_helper,
      sys_info.
    py_unfold. rewrite Hsend. simpl. rewrite Hread. simpl.
    rewrite Hoff. destruct b; reflexivity.
Qed.

Lemma storing_led (v : Z) (d : SysInfo.t) :
  exists res d',
    send_command (protocol Bench.plug)
      (mkRequest (context Bench.plug) "system" "set_led_off" [("off", v)]) d
      = Some (res, d') /\
    SysInfo.led_off d' = v.
Proof. eexists _, _. split; reflexivity. Qed.

Lemma storing_relay (v : Z) (d : SysInfo.t) :
  exists res d',
    send_command (protocol Bench.plug)
      (set_relay_state (context Bench.plug) v) d = Some (res, d') /\
    SysInfo.relay_state d' = v.
Proof. eexists _, _. split; reflexivity. Qed.

Lemma led_round_trip_witness :
  fst ((SmartMultiPlug.led_setter Bench.plug false
          ≫= fun _ => SmartMultiPlug.led Bench.plug)
         (Sample.world Bench.mixed)) = Ok false.
Proof.
  apply (led_round_trip Bench.plug false (Sample.world Bench.mixed)
           storing_led (fun d => eq_refl)).
Defined.

(** X6.  Behind a transport whose device stores the value of a
    [set_relay_state] command and reports its record, writing a case variant
    of "ON" to [state] of the single-relay device and reading [state] back
    gives "ON", writing a case variant of "OFF" gives "OFF", and the read logs
    no warning. *)
Theorem state_round_trip (self : SmartDevice) (value : Python.object)
    (w : World) :
  (forall v d, exists res d',
     send_command (protocol self) (set_relay_state (context self) v) d
       = Some (res, d') /\
     SysInfo.relay_state d' = v) ->
  (forall d, query_info (protocol self) (context self) d = Some d) ->
  let run :=
    (SmartMultiPlug.state_setter self value
       ≫= fun _ => SmartMultiPlug.state self) w in
  (says on_tokens value -> fst run = Ok "ON" /\ warnings (snd run) = warnings w)
  /\ (says off_tokens value ->
      fst run = Ok "OFF" /\ warnings (snd run) = warnings w).
Proof.
  intros Hstore Hread run. subst run. rewrite plug_setter_cases.
  assert (forall v, v = 0 \/ v = 1 ->
            let run := (( _ ← _query_helper self "system" "set_relay_state"
                                [("state", v)]; mret tt)
                          ≫= fun _ => SmartMultiPlug.state self) w in
            fst run = Ok (if v =? 1 then "ON" else "OFF") /\
            warnings (snd run) = warnings w) as Hrun.
  { intros v Hv. destruct (Hstore v (device w)) as (res & d' & Hsend & Hrel).
    unfold set_relay_state in Hsend.
    unfold SmartMultiPlug.state, _query_helper, sys_info. py_unfold.
    rewrite Hsend. simpl. rewrite Hread. simpl. rewrite Hrel.
    destruct Hv as [-> | ->]; simpl; auto. }
  split.
  - intros Hon. rewrite decide_True by exact Hon. apply (Hrun 1). auto.
  - intros Hoff.
    rewrite decide_False, decide_True by
      (first [ exact Hoff
             | destruct value; simpl in *; try tauto;
               intros Hon; exact (tokens_disjoint _ Hon Hoff) ]).
    apply (Hrun 0). auto.
Qed.

Lemma state_round_trip_witness :
  says off_tokens (Python.PyStr "oFf") /\
  fst ((SmartMultiPlug.state_setter Bench.plug (Python.PyStr "oFf")
          ≫= fun _ => SmartMultiPlug.state Bench.plug)
         (Sample.world Bench.mixed)) = Ok "OFF".
Proof.
  assert (says off_tokens (Python.PyStr "oFf")) as Hoff by by_evaluation.
  split; [exact Hoff|].
  apply (state_round_trip Bench.plug (Python.PyStr "oFf")
           (Sample.world Bench.mixed) storing_relay (fun d => eq_refl)).
  exact Hoff.
Defined.

(** ** The state read of the strip *)

(** X7.  On a fresh record that lists at least the strip's outlets, the
    [state] read of the strip makes one status fetch and no command, returns
    a dictionary over exactly the positions below the outlet count, with ON
    where the child's [state] field is 1 and UNKNOWN everywhere else, and
    logs one warning, in outlet order, for every value that is not 1. *)
Theorem strip_state_spec (self : SmartStrip.t) (w : World) (info : SysInfo.t) :
  query_info (protocol (SmartStrip.base self)) (context (SmartStrip.base self))
             (device w) = Some info ->
  0 <= SmartStrip.num_children self <= Z.of_nat (length (SysInfo.children info)) ->
  exists d,
    SmartStrip.state self w =
      (Ok d,
       mkWorld (device w) (clock w)
         (trace w ++ [Fetch (context (SmartStrip.base self))])%list
         (warnings w ++
          List.filter (fun v => negb (v =? 1))
            (Child.state <$> take (Z.to_nat (SmartStrip.num_children self))
                               (SysInfo.children info)))%list) /\
    forall i, d !! i =
      if decide (0 <= i < SmartStrip.num_children self)
      then (fun c => if Child.state c =? 1 then "ON" else "UNKNOWN")
             <$> SysInfo.children info !! Z.to_nat i
      else None.
Proof.
  intros Hq Hn. unfold SmartStrip.state.
  erewrite bind_ok by (apply sys_info_ok; exact Hq).
  replace (Python.range (SmartStrip.num_children self))
    with (Python.range (Z.of_nat (Z.to_nat (SmartStrip.num_children self))))
    by (rewrite Z2Nat.id by lia; reflexivity).
  destruct (strip_state_loop self (SysInfo.children info)
              (Z.to_nat (SmartStrip.num_children self))
              (after (Fetch (context (SmartStrip.base self))) w)
              ltac:(lia)) as [sw Hloop].
  erewrite bind_ok by exact Hloop.
  eexists. split; [reflexivity|].
  intros i. simpl. rewrite lookup_collected by lia.
  rewrite Z2Nat.id by lia. reflexivity.
Qed.

Lemma strip_state_spec_witness :
  exists d,
    fst (SmartStrip.state Sample.strip (Sample.world (Sample.strip4 "TIM")))
      = Ok d /\
    warnings (snd (SmartStrip.state Sample.strip
                     (Sample.world (Sample.strip4 "TIM")))) = [0; 0] /\
    d !! 0 = Some "UNKNOWN" /\ d !! 1 = Some "ON" /\ d !! 4 = None.
Proof.
  destruct (strip_state_spec Sample.strip (Sample.world (Sample.strip4 "TIM"))
              (Sample.strip4 "TIM") eq_refl ltac:(simpl; lia))
    as (d & Hd & Hlook).
  exists d. rewrite Hd. split; [reflexivity|]. split; [reflexivity|].
  rewrite !Hlook. repeat split.
Defined.

(** The values the loop of [state] stores are ON and UNKNOWN, under keys of
    the range it runs over. *)
Lemma state_loop_values (children : list Child.t) (l : list Z)
    (st st' : gmap Z string) (sw sw' : option string) (w w' : World) :
  for_each l
    (fun plug '(states, switch_state) =>
       child ← or_raise (Python.getitem children plug) IndexError;
       let relay_state := Child.state child in
       let switch_state : option string :=
         if relay_state =? 0 then Some SmartPlug.SWITCH_STATE_OFF
         else switch_state in
       switch_state ←
         (if relay_state =? 1 then mret SmartPlug.SWITCH_STATE_ON
          else _ ← warning relay_state;
               mret SmartPlug.SWITCH_STATE_UNKNOWN);
       mret (<[plug := switch_state]> states, Some switch_state))
    (st, sw) w = (Ok (st', sw'), w') ->
  forall i s, st' !! i = Some s ->
    st !! i = Some s \/ (i ∈ l /\ (s = "ON" \/ s = "UNKNOWN")).
Proof.
  revert st sw w. induction l as [|x l IH]; intros st sw w; simpl.
  - intros E. injection E as <- _ _. auto.
  - rewrite bind_unfold.
    destruct (Python.getitem children x) as [child|]; py_unfold;
      [|discriminate].
    destruct (Child.state child =? 1); py_unfold; intros E i s Hs;
      destruct (IH _ _ _ E i s Hs) as [Hin | [Hin Hv]];
      try (right; split; [right; exact Hin | exact Hv]);
      (destruct (decide (x = i)) as [->|Hne];
       [ rewrite lookup_insert_eq in Hin; injection Hin as <-;
         right; split; [left | auto]
       | rewrite lookup_insert_ne in Hin by exact Hne; left; exact Hin ]).
Qed.

(** X8.  Whatever the strip object, the record and the transport, a [state]
    read of the strip that returns never reports OFF: every value of the
    dictionary is ON or UNKNOWN, and every key is a position below the outlet
    count. *)
Theorem strip_state_never_off (self : SmartStrip.t) (w w' : World)
    (d : gmap Z string) :
  SmartStrip.state self w = (Ok d, w') ->
  forall i s, d !! i = Some s ->
    (s = "ON" \/ s = "UNKNOWN") /\ s <> "OFF" /\
    0 <= i < SmartStrip.num_children self.
Proof.
  unfold SmartStrip.state. rewrite bind_unfold.
  destruct (sys_info (SmartStrip.base self) w) as [[info|e] w1]; [|discriminate].
  rewrite bind_unfold.
  destruct (for_each _ _ _ w1) as [[[st' sw']|e] w2] eqn:Eloop; [|discriminate].
  intros E i s Hs. injection E as <- _. simpl in Hs.
  destruct (state_loop_values _ _ _ _ _ _ _ _ Eloop i s Hs) as [Hin | [Hin Hv]].
  - rewrite lookup_empty in Hin. discriminate Hin.
  - split; [exact Hv|]. split; [destruct Hv as [-> | ->]; discriminate|].
    unfold Python.range in Hin. apply elem_of_seqZ in Hin. lia.
Qed.

Lemma strip_state_never_off_witness :
  SmartStrip.state Sample.strip (Sample.world (Sample.strip4 "TIM"))
    = (Ok (map_seqZ 0 ["UNKNOWN"; "ON"; "ON"; "UNKNOWN"]),
       mkWorld (Sample.strip4 "TIM") 1700000000000000 [Fetch None] [0; 0])
  /\ 0 <= 3 < SmartStrip.num_children Sample.strip.
Proof.
  assert (SmartStrip.state Sample.strip (Sample.world (Sample.strip4 "TIM"))
          = (Ok (map_seqZ 0 ["UNKNOWN"; "ON"; "ON"; "UNKNOWN"]),
             mkWorld (Sample.strip4 "TIM") 1700000000000000 [Fetch None] [0; 0]))
    as E by (vm_compute; reflexivity).
  split; [exact E|].
  apply (strip_state_never_off Sample.strip _ _ _ E 3 "UNKNOWN"). reflexivity.
Defined.

(** ** Constructing a strip and checking an index *)



(** X9.  On a strip the constructor returned, [raise_for_index] returns
    exactly for the positions below the outlet count and raises
    SmartStripException for every other index, the sentinel -1 included (the
    callers never pass it a negative index); either way it leaves the world
    untouched. *)
Theorem raise_for_index_accepts (h : string) (p : TPLinkSmartHomeProtocol)
    (w0 w1 : World) (info0 : SysInfo.t) (self : SmartStrip.t) (index : Z)
    (w : World) :
  query_info p None (device w0) = Some info0 ->
  SmartStrip.__init__ h p w0 = (Ok self, w1) ->
  (0 <= index < SmartStrip.num_children self ->
   SmartStrip.raise_for_index self index w = (Ok tt, w))
  /\ (~ (0 <= index < SmartStrip.num_children self) ->
      SmartStrip.raise_for_index self index w
        = (Raise (SmartStripException index), w))
  /\ SmartStrip.raise_for_index self (-1) w
     = (Raise (SmartStripException (-1)), w).
Proof.
  intros Hq Hinit. split; [|split].
  - apply (raise_for_index_ok h p w0 w1 info0 self Hq Hinit).
  - apply (raise_for_index_raises h p w0 w1 info0 self Hq Hinit).
  - apply (raise_for_index_raises h p w0 w1 info0 self Hq Hinit). lia.
Qed.

Lemma raise_for_index_accepts_witness :
  SmartStrip.raise_for_index Sample.strip 3 (Sample.world (Sample.strip4 "TIM"))
    = (Ok tt, Sample.world (Sample.strip4 "TIM"))
  /\ SmartStrip.raise_for_index Sample.strip 4
       (Sample.world (Sample.strip4 "TIM"))
     = (Raise (SmartStripException 4), Sample.world (Sample.strip4 "TIM"))
  /\ SmartStrip.raise_for_index Sample.strip (-1)
       (Sample.world (Sample.strip4 "TIM"))
     = (Raise (SmartStripException (-1)), Sample.world (Sample.strip4 "TIM")).
Proof.
  pose proof (fun index =>
    raise_for_index_accepts Sample.address Sample.answering
      (Sample.world (Sample.strip4 "TIM"))
      (after (Fetch None) (Sample.world (Sample.strip4 "TIM")))
      (Sample.strip4 "TIM") Sample.strip index
      (Sample.world (Sample.strip4 "TIM")) eq_refl (init_sample "TIM")) as R.
  split; [|split].
  - apply (R 3). simpl. lia.
  - apply (R 4). simpl. lia.
  - apply (R 0).
Defined.

(** ** The feature tags *)

Lemma append_cons (x : ascii) (a b : string) :
  String x a ++ b = String x (a ++ b).
Proof. reflexivity. Qed.

Lemma append_assoc (a b c : string) : (a ++ b) ++ c = a ++ (b ++ c).
Proof.
  induction a as [|x a IH]; [reflexivity|].
  rewrite !append_cons, IH. reflexivity.
Qed.

Lemma append_nil_r (a : string) : a ++ "" = a.
Proof.
  induction a as [|x a IH]; [reflexivity|].
  rewrite append_cons, IH. reflexivity.
Qed.

Lemma occurs_append (c : ascii) (a b : string) :
  occurs c (a ++ b) = occurs c a || occurs c b.
Proof.
  induction a as [|x a IH]; [reflexivity|].
  rewrite append_cons. simpl. rewrite IH, orb_assoc. reflexivity.
Qed.

Lemma split_aux_nonempty (sep : ascii) (cur s : string) :
  Python.split_aux sep cur s <> [].
Proof.
  revert cur. induction s as [|c s IH]; intros cur; simpl; [discriminate|].
  destruct (Ascii.eqb c sep); [discriminate | apply IH].
Qed.

Lemma join_cons (sep x : string) (rest : list string) :
  rest <> [] -> join sep (x :: rest) = x ++ sep ++ join sep rest.
Proof. destruct rest; [contradiction | reflexivity]. Qed.

(** Joining the pieces of a split with the separator gives the string
    back. *)
Lemma join_split_aux (sep : ascii) (cur s : string) :
  join (String sep "") (Python.split_aux sep cur s) = cur ++ s.
Proof.
  revert cur. induction s as [|c s IH]; intros cur; simpl.
  - rewrite append_nil_r. reflexivity.
  - destruct (Ascii.eqb_spec c sep) as [->|Hne].
    + rewrite join_cons by apply split_aux_nonempty. rewrite IH. reflexivity.
    + rewrite IH, append_assoc. reflexivity.
Qed.

(** No piece of a split contains the separator. *)
Lemma split_aux_pieces (sep : ascii) (cur s : string) :
  occurs sep cur = false ->
  Forall (fun x => occurs sep x = false) (Python.split_aux sep cur s).
Proof.
  revert cur. induction s as [|c s IH]; intros cur Hcur; simpl.
  - repeat constructor. exact Hcur.
  - destruct (Ascii.eqb_spec c sep) as [->|Hne].
    + constructor; [exact Hcur | apply IH; reflexivity].
    + apply IH. rewrite occurs_append, Hcur. simpl.
      rewrite orb_false_r. apply Ascii.eqb_neq. exact Hne.
Qed.

Lemma split_aux_piece (sep : ascii) (cur x t : string) :
  occurs sep x = false ->
  Python.split_aux sep cur (x ++ t) = Python.split_aux sep (cur ++ x) t.
Proof.
  revert cur. induction x as [|c x IH]; intros cur Hx.
  - rewrite append_nil_r. reflexivity.
  - simpl in Hx. apply orb_false_iff in Hx. destruct Hx as [Hc Hx].
    rewrite append_cons. simpl. rewrite Hc, IH by exact Hx.
    rewrite append_assoc. reflexivity.
Qed.

(** Splitting the join of separator-free pieces gives the pieces back. *)
Lemma split_join (sep : ascii) (pieces : list string) :
  pieces <> [] ->
  Forall (fun x => occurs sep x = false) pieces ->
  Python.split sep (join (String sep "") pieces) = pieces.
Proof.
  unfold Python.split.
  induction pieces as [|x rest IH]; intros Hne Hall; [contradiction|].
  inversion Hall as [|? ? Hx Hrest]; subst.
  destruct rest as [|y rest].
  - change (join (String sep "") [x]) with x.
    rewrite <- (append_nil_r x) at 1.
    rewrite split_aux_piece by exact Hx. reflexivity.
  - rewrite join_cons by discriminate.
    rewrite split_aux_piece by exact Hx.
    change (String sep "" ++ join (String sep "") (y :: rest))
      with (String sep (join (String sep "") (y :: rest))).
    simpl Python.split_aux. rewrite Ascii.eqb_refl. f_equal.
    apply IH; [discriminate | exact Hrest].
Qed.

(** X11.  [has_emeter] makes one status fetch and no command, and holds
    exactly when the marker is one whole tag of the feature field: the field
    is the tags joined with ':', no tag containing ':', and the marker equal
    to one of them (same case, no partial match). *)
Theorem has_emeter_exact_tag `{SmartDeviceConstants} (self : SmartDevice)
    (w : World) (info : SysInfo.t) :
  query_info (protocol self) (context self) (device w) = Some info ->
  exists b,
    SmartMultiPlug.has_emeter self w = (Ok b, after (Fetch (context self)) w) /\
    (b = true <->
     exists tags,
       join ":" tags = SysInfo.feature info /\
       Forall (fun x => occurs ":" x = false) tags /\
       FEATURE_ENERGY_METER ∈ tags).
Proof.
  intros Hq. eexists. split.
  - unfold SmartMultiPlug.has_emeter.
    erewrite bind_ok by (apply sys_info_ok; exact Hq). reflexivity.
  - rewrite contains_elem_of, bool_decide_eq_true. split.
    + intros Hin. exists (Python.split ":" (SysInfo.feature info)).
      split; [apply (join_split_aux ":" "")|].
      split; [apply split_aux_pieces; reflexivity | exact Hin].
    + intros (tags & Hjoin & Hall & Hin).
      rewrite <- Hjoin, split_join; [exact Hin | | exact Hall].
      intros ->. inversion Hin.
Qed.

Lemma has_emeter_exact_tag_witness :
  exists b,
    SmartMultiPlug.has_emeter Sample.plug (Sample.world (Sample.strip4 "TIM:ENE"))
      = (Ok b, after (Fetch None) (Sample.world (Sample.strip4 "TIM:ENE"))) /\
    (b = true <->
     exists tags,
       join ":" tags = "TIM:ENE" /\
       Forall (fun x => occurs ":" x = false) tags /\
       "ENE" ∈ tags).
Proof.
  exact (has_emeter_exact_tag (H := Sample.constants) Sample.plug
           (Sample.world (Sample.strip4 "TIM:ENE")) (Sample.strip4 "TIM:ENE")
           eq_refl).
Defined.

(** ** The state information bundles *)



Lemma length_append (a b : string) :
  String.length (a ++ b) = (String.length a + String.length b)%nat.
Proof.
  induction a as [|x a IH]; [reflexivity|].
  rewrite append_cons. simpl. rewrite IH. reflexivity.
Qed.

Lemma append_inv_tail (a b t : string) : a ++ t = b ++ t -> a = b.
Proof.
  revert b. induction a as [|x a IH]; intros [|y b] E.
  - reflexivity.
  - apply (f_equal String.length) in E.
    rewrite !length_append in E. simpl in E. lia.
  - apply (f_equal String.length) in E.
    rewrite !length_append in E. simpl in E. lia.
  - rewrite !append_cons in E. injection E as -> E. f_equal. apply IH, E.
Qed.

(** Different positions have different labels. *)
Lemma plug_label_inj (i j : Z) :
  SmartStrip.plug_label i = SmartStrip.plug_label j -> i = j.
Proof.
  unfold SmartStrip.plug_label, Python.format_d. intros E.
  apply (inj (String.app "Plug ")) in E.
  apply append_inv_tail in E. apply (inj pretty) in E. lia.
Qed.

Lemma plug_label_not_led (i : Z) : SmartStrip.plug_label i <> "LED state".
Proof.
  change (SmartStrip.plug_label i)
    with (String "P" ("lug " ++ Python.format_d (i + 1) ++ " on since")).
  discriminate.
Qed.

(** The loop of the strip's [state_information]: every position gets its
    label, holding the value the aggregate on-time dictionary has for it; the
    other keys keep what they held. *)
Lemma label_loop (d : gmap Z Z) (k : nat) (st : gmap string InfoValue)
    (w : World) :
  (forall i, 0 <= i < Z.of_nat k -> is_Some (d !! i)) ->
  exists r,
    for_each (Python.range (Z.of_nat k))
      (fun plug_index (state : gmap string InfoValue) =>
         v ← match SmartStrip.OnTimeAll d with
             | SmartStrip.OnTimeAll d =>
                 or_raise (d !! plug_index) (KeyError plug_index)
             | SmartStrip.OnSinceOne _ => raise TypeError
             end;
         mret (<[SmartStrip.plug_label plug_index := InfoInt v]> state))
      st w = (Ok r, w) /\
    (forall i, 0 <= i < Z.of_nat k ->
       r !! SmartStrip.plug_label i = InfoInt <$> d !! i) /\
    (forall key, (forall i, 0 <= i < Z.of_nat k ->
                    key <> SmartStrip.plug_label i) ->
       r !! key = st !! key).
Proof.
  induction k as [|k IH]; intros Hd.
  - exists st. split; [reflexivity|]. split; [intros i Hi; lia | reflexivity].
  - destruct IH as (r & Hr & Hlab & Hother); [intros i Hi; apply Hd; lia|].
    destruct (Hd (Z.of_nat k) ltac:(lia)) as [v Hv].
    exists (<[SmartStrip.plug_label (Z.of_nat k) := InfoInt v]> r).
    split; [|split].
    + rewrite range_S, for_each_app. erewrite bind_ok by exact Hr.
      simpl. rewrite Hv. reflexivity.
    + intros i Hi. destruct (decide (i = Z.of_nat k)) as [->|Hne].
      * rewrite lookup_insert_eq, Hv. reflexivity.
      * rewrite lookup_insert_ne by
          (intros E; apply plug_label_inj in E; congruence).
        apply Hlab. lia.
    + intros key Hkey. rewrite lookup_insert_ne by
        (intros E; apply (Hkey (Z.of_nat k)); [lia | congruence]).
      apply Hother. intros i Hi. apply Hkey. lia.
Qed.

(** X12.  On a fresh record that lists at least the strip's outlets,
    [state_information] of the strip makes two status fetches and no command
    and returns the entry 'LED state' plus, for every position i below the
    outlet count, the entry 'Plug i+1 on since' (labels count from 1) holding
    the raw [on_time] seconds of child i, not a timestamp; it has no other
    entry. *)
Theorem strip_state_information (self : SmartStrip.t) (w : World)
    (info : SysInfo.t) :
  query_info (protocol (SmartStrip.base self)) (context (SmartStrip.base self))
             (device w) = Some info ->
  0 <= SmartStrip.num_children self <= Z.of_nat (length (SysInfo.children info)) ->
  exists r,
    SmartStrip.state_information self w
      = (Ok r, after (Fetch (context (SmartStrip.base self)))
                 (after (Fetch (context (SmartStrip.base self))) w)) /\
    r !! "LED state" = Some (InfoBool (SysInfo.led_off info =? 0)) /\
    (forall i c, 0 <= i < SmartStrip.num_children self ->
       SysInfo.children info !! Z.to_nat i = Some c ->
       r !! ("Plug " ++ pretty (i + 1) ++ " on since")
         = Some (InfoInt (Child.on_time c))) /\
    (forall key, is_Some (r !! key) ->
       key = "LED state" \/
       exists i, 0 <= i < SmartStrip.num_children self /\
                 key = "Plug " ++ pretty (i + 1) ++ " on since").
Proof.
  intros Hq Hn. set (n := SmartStrip.num_children self) in *.
  set (k := Z.to_nat n). assert (n = Z.of_nat k) as Hk by (unfold k; lia).
  set (F := Fetch (context (SmartStrip.base self))).
  set (d := map_seqZ (M := gmap Z Z) 0
              (Child.on_time <$> take k (SysInfo.children info))).
  assert (forall i, d !! i =
            if decide (0 <= i < Z.of_nat k)
            then Child.on_time <$> SysInfo.children info !! Z.to_nat i
            else None) as Hd by (intros i; apply lookup_collected; lia).
  assert (SmartStrip.on_since self (-1) (after F w)
          = (Ok (SmartStrip.OnTimeAll d), after F (after F w))) as Hsince.
  { unfold SmartStrip.on_since. simpl.
    erewrite bind_ok by (apply sys_info_ok; exact Hq).
    fold n. rewrite Hk.
    erewrite bind_ok by (apply (for_each_collect Child.on_time); lia).
    reflexivity. }
  destruct (label_loop d k (<["LED state" :=
                                InfoBool (SysInfo.led_off info =? 0)]> ∅)
              (after F (after F w))) as (r & Hr & Hlab & Hother).
  { intros i Hi. rewrite Hd, decide_True by exact Hi.
    destruct (lookup_lt_is_Some_2 (SysInfo.children info) (Z.to_nat i)
                ltac:(lia)) as [c ->]. eexists. reflexivity. }
  exists r. split; [|split; [|split]].
  - unfold SmartStrip.state_information, SmartPlug.led.
    erewrite bind_ok by
      (erewrite bind_ok by (apply sys_info_ok; exact Hq); reflexivity).
    erewrite bind_ok by exact Hsince.
    fold n. rewrite Hk. exact Hr.
  - rewrite Hother by (intros i _ E; exact (plug_label_not_led i (eq_sym E))).
    apply lookup_insert_eq.
  - intros i c Hi Hc.
    change ("Plug " ++ pretty (i + 1) ++ " on since")
      with (SmartStrip.plug_label i).
    rewrite Hlab, Hd, decide_True, Hc by lia. reflexivity.
  - intros key [v Hv].
    destruct (decide (key ∈ SmartStrip.plug_label
                              <$> Python.range (Z.of_nat k))) as [Hin|Hno].
    + right. apply list_elem_of_fmap in Hin. destruct Hin as (i & -> & Hi).
      unfold Python.range in Hi. apply elem_of_seqZ in Hi.
      exists i. split; [lia | reflexivity].
    + left. rewrite Hother in Hv.
      * destruct (decide (key = "LED state")) as [->|Hne]; [reflexivity|].
        rewrite lookup_insert_ne, lookup_empty in Hv by congruence.
        discriminate Hv.
      * intros i Hi ->. apply Hno. apply list_elem_of_fmap. exists i.
        split; [reflexivity|]. unfold Python.range. apply elem_of_seqZ. lia.
Qed.

Lemma strip_state_information_witness :
  exists r,
    SmartStrip.state_information Sample.strip
      (Sample.world (Sample.strip4 "TIM"))
    = (Ok r, after (Fetch None)
               (after (Fetch None) (Sample.world (Sample.strip4 "TIM")))) /\
    r !! "LED state" = Some (InfoBool true) /\
    r !! "Plug 3 on since" = Some (InfoInt 3600).
Proof.
  destruct (strip_state_information Sample.strip
              (Sample.world (Sample.strip4 "TIM")) (Sample.strip4 "TIM")
              eq_refl ltac:(simpl; lia)) as (r & Hr & Hled & Hplug & _).
  exists r. split; [exact Hr|]. split; [exact Hled|].
  apply (Hplug 2 (Sample.child "02" 1 3600)); [simpl; lia | reflexivity].
Defined.

(** ** A record that lost an outlet *)

(** X14.  When the fresh record lists fewer children than the strip's outlet
    count, the aggregate forms of [is_on] and [on_since] return no
    dictionary: indexing the children array raises IndexError, after the one
    status fetch and without any command. *)
Theorem aggregate_reads_short_record (self : SmartStrip.t) (index : Z)
    (w : World) (info : SysInfo.t) :
  query_info (protocol (SmartStrip.base self)) (context (SmartStrip.base self))
             (device w) = Some info ->
  index < 0 ->
  Z.of_nat (length (SysInfo.children info)) < SmartStrip.num_children self ->
  SmartStrip.is_on self index w
    = (Raise IndexError, after (Fetch (context (SmartStrip.base self))) w)
  /\ SmartStrip.on_since self index w
     = (Raise IndexError, after (Fetch (context (SmartStrip.base self))) w).
Proof.
  intros Hq Hneg Hshort.
  assert (SmartStrip.num_children self
          = Z.of_nat (Z.to_nat (SmartStrip.num_children self))) as Hk by lia.
  unfold SmartStrip.is_on, SmartStrip.on_since.
  replace (index <? 0) with true by (symmetry; apply Z.ltb_lt; lia).
  split.
  - erewrite bind_ok by (apply sys_info_ok; exact Hq). rewrite Hk.
    erewrite bind_raise; [reflexivity|].
    apply (for_each_short
             (fun c => Python.bool_of_int (Child.relay_state c))). lia.
  - erewrite bind_ok by (apply sys_info_ok; exact Hq). rewrite Hk.
    erewrite bind_raise; [reflexivity|].
    apply (for_each_short Child.on_time). lia.
Qed.

Lemma aggregate_reads_short_record_witness :
  Z.of_nat (length (SysInfo.children (Sample.single 0)))
    < SmartStrip.num_children Sample.strip
  /\ SmartStrip.is_on Sample.strip (-1) (Sample.world (Sample.single 0))
     = (Raise IndexError, after (Fetch None) (Sample.world (Sample.single 0))).
Proof.
  assert (Z.of_nat (length (SysInfo.children (Sample.single 0)))
            < SmartStrip.num_children Sample.strip) as Hshort by (simpl; lia).
  split; [exact Hshort|].
  apply (aggregate_reads_short_record Sample.strip (-1)
           (Sample.world (Sample.single 0)) (Sample.single 0) eq_refl);
    [lia | exact Hshort].
Defined.
